(** * Random Facts API: request pipeline and consistency layer

    A shallow embedding of [models.py] and [app.py].

    - The four SQLAlchemy models are records; the database is a record of
      four tables, each an ordered list of rows.
    - [db.session.add / delete / commit / rollback] is a unit of work: a list
      of pending operations that [commit] applies atomically, failing (the
      [IntegrityError] of the source) when a declared constraint is violated.
    - A view function maps a request and a store to an outcome and a store.
      An outcome is a returned value (a bare [jsonify(...)] response or a
      [(response, status)] tuple) or a raised exception.
    - The decorators [track_usage], [jwt_required] and [limiter.limit] are
      higher-order functions over view functions.
    - Python integers are unbounded: ids, counters and page numbers are [Z].
      The database driver binds integers as 64-bit values and raises for the
      others; a view in which that happens raises.
    - A request body is a JSON object or the JSON null; query arguments and
      JSON values have the type the view expects; strings are byte strings
      (the UTF-8 form of the Python strings). *)

From Stdlib Require Import ZArith List String Bool Lia.
Import ListNotations.
Local Open Scope string_scope.
Local Open Scope Z_scope.

Set Implicit Arguments.

(* ===================================================================== *)
(** * models.py                                                           *)
(* ===================================================================== *)

(** Timestamps ([datetime.utcnow], [time.time]) are integers read from the
    environment of the request. *)
Definition Time := Z.

Module User.
Record t := mk {
  id : Z;
  username : string;
  email : string;
  password_hash : string;
  is_active : bool;
  created_at : Time
}.
End User.

Module Fact.
Record t := mk {
  id : Z;
  content : string;
  category : string;
  is_active : bool;
  created_at : Time;
  view_count : Z
}.
End Fact.

Module Favorite.
Record t := mk {
  id : Z;
  user_id : Z;
  fact_id : Z;
  created_at : Time
}.
End Favorite.

Module ApiUsage.
Record t := mk {
  id : Z;
  endpoint : string;
  method : string;
  ip_address : string;
  user_id : option Z;
  response_code : Z;
  response_time_ms : Z;
  timestamp : Time
}.
End ApiUsage.

(** [User.to_dict] and [Fact.to_dict]: the JSON view of a row.  Neither
    exposes [password_hash]; [Fact.to_dict] does not expose [is_active]. *)
Module UserDict.
Record t := mk {
  id : Z;
  username : string;
  email : string;
  is_active : bool;
  created_at : Time
}.
End UserDict.

Module FactDict.
Record t := mk {
  id : Z;
  content : string;
  category : string;
  view_count : Z;
  created_at : Time
}.
End FactDict.

Definition user_to_dict (u : User.t) : UserDict.t :=
  UserDict.mk (User.id u) (User.username u) (User.email u)
              (User.is_active u) (User.created_at u).

Definition fact_to_dict (f : Fact.t) : FactDict.t :=
  FactDict.mk (Fact.id f) (Fact.content f) (Fact.category f)
              (Fact.view_count f) (Fact.created_at f).

(** The database: one ordered list of rows per table. *)
Record Store := mkStore {
  users : list User.t;
  facts : list Fact.t;
  favorites : list Favorite.t;
  api_usage : list ApiUsage.t
}.

Definition empty_store : Store := mkStore [] [] [] [].

(* ===================================================================== *)
(** * The unit of work: db.session                                        *)
(* ===================================================================== *)

(** Integer primary keys are assigned by the database: one more than the
    largest key of the table, 1 for an empty table. *)
Definition next_id (ids : list Z) : Z := 1 + fold_right Z.max 0 ids.

(** What a session can hold when [commit] is called.  Inserts carry the
    columns the source passes to the constructor; the others take their
    [default=]. *)
Inductive Pending :=
| AddUser (username email password_hash : string)
| AddFact (content category : string)
| AddFavorite (user_id fact_id : Z)
| AddUsage (endpoint method ip_address : string) (user_id : option Z)
           (response_code response_time_ms : Z)
| DeleteFavorite (id : Z)
| SetViewCount (fact_id : Z) (view_count : Z).

(** [unique=True] on [User.username] and [User.email]. *)
Definition username_taken (s : Store) (name : string) : bool :=
  existsb (fun u => String.eqb (User.username u) name) (users s).

Definition email_taken (s : Store) (mail : string) : bool :=
  existsb (fun u => String.eqb (User.email u) mail) (users s).

(** [UniqueConstraint('user_id', 'fact_id', name='unique_user_fact')]. *)
Definition is_favorite (u f : Z) (fav : Favorite.t) : bool :=
  (Favorite.user_id fav =? u) && (Favorite.fact_id fav =? f).

Definition favorite_exists (s : Store) (u f : Z) : bool :=
  existsb (is_favorite u f) (favorites s).

Definition set_view_count (v : Z) (f : Fact.t) : Fact.t :=
  Fact.mk (Fact.id f) (Fact.content f) (Fact.category f)
          (Fact.is_active f) (Fact.created_at f) v.

(** The row an INSERT into [user] creates: [is_active] and [created_at]
    take their defaults. *)
Definition new_user (now : Time) (s : Store) (name mail hash : string)
  : User.t :=
  User.mk (next_id (map User.id (users s))) name mail hash true now.

(** One statement of the flush.  [None] is the [IntegrityError] raised by a
    violated uniqueness constraint.  Foreign keys are declared in models.py
    but the store of the test configuration (SQLite) does not enforce them,
    so they are not checked here. *)
Definition flush (now : Time) (s : Store) (p : Pending) : option Store :=
  match p with
  | AddUser name mail hash =>
      if username_taken s name || email_taken s mail then None
      else Some (mkStore (users s ++ [new_user now s name mail hash])
                         (facts s) (favorites s) (api_usage s))
  | AddFact text cat =>
      Some (mkStore (users s)
                    (facts s ++ [Fact.mk (next_id (map Fact.id (facts s)))
                                         text cat true now 0])
                    (favorites s) (api_usage s))
  | AddFavorite u f =>
      if favorite_exists s u f then None
      else Some (mkStore (users s) (facts s)
                   (favorites s ++
                      [Favorite.mk (next_id (map Favorite.id (favorites s)))
                                   u f now])
                   (api_usage s))
  | AddUsage ep m ip uid code ms =>
      Some (mkStore (users s) (facts s) (favorites s)
              (api_usage s ++
                 [ApiUsage.mk (next_id (map ApiUsage.id (api_usage s)))
                              ep m ip uid code ms now]))
  | DeleteFavorite i =>
      Some (mkStore (users s) (facts s)
              (filter (fun fav => negb (Favorite.id fav =? i)) (favorites s))
              (api_usage s))
  | SetViewCount i v =>
      Some (mkStore (users s)
              (map (fun f => if Fact.id f =? i then set_view_count v f else f)
                   (facts s))
              (favorites s) (api_usage s))
  end.

(** [db.session.commit()]: every pending statement in order, all or nothing.
    On [None] the caller's [db.session.rollback()] leaves the store as it
    was. *)
Fixpoint commit (now : Time) (s : Store) (ps : list Pending) : option Store :=
  match ps with
  | [] => Some s
  | p :: ps' =>
      match flush now s p with
      | Some s' => commit now s' ps'
      | None => None
      end
  end.

(* ===================================================================== *)
(** * Requests and responses                                              *)
(* ===================================================================== *)

(** A JSON object ([request.get_json()]) is a dict from keys to values. *)
Definition Json (V : Type) := list (string * V).

Fixpoint json_get {V : Type} (k : string) (d : Json V) : option V :=
  match d with
  | [] => None
  | (k', v) :: d' => if String.eqb k' k then Some v else json_get k d'
  end.

(** [k in data] *)
Definition json_has {V : Type} (k : string) (d : Json V) : bool :=
  match json_get k d with Some _ => true | None => false end.

(** [not data]: [request.get_json()] gave [None] (the body is the JSON
    null) or the empty object.  A request whose body is not JSON at all makes
    [get_json] raise and is not a value of this type. *)
Definition json_falsy {V : Type} (data : option (Json V)) : bool :=
  match data with
  | None => true
  | Some [] => true
  | Some (_ :: _) => false
  end.

Inductive Method := GET | POST | DELETE.

Definition method_name (m : Method) : string :=
  match m with GET => "GET" | POST => "POST" | DELETE => "DELETE" end.

(** The routes of [create_app] with what each reads from the request.
    Query arguments read with [type=int] are [None] when absent or not an
    integer; [data] is what [request.get_json()] returns, [None] for the
    JSON null; JSON values have the type the view function expects. *)
Inductive Call :=
| Home
| HealthCheck
| Register (data : option (Json string))
| Login (data : option (Json string))
| GetFacts (page per_page : option Z) (category : option string)
| RandomFact (category : option string)
| GetCategories
| ManageFavorites (method : Method) (data : option (Json Z))
| GetProfile
| AdminStats.

(** [request.endpoint]: the name of the view function. *)
Definition endpoint_name (c : Call) : string :=
  match c with
  | Home => "home"
  | HealthCheck => "health_check"
  | Register _ => "register"
  | Login _ => "login"
  | GetFacts _ _ _ => "get_facts"
  | RandomFact _ => "random_fact"
  | GetCategories => "get_categories"
  | ManageFavorites _ _ => "manage_favorites"
  | GetProfile => "get_profile"
  | AdminStats => "admin_stats"
  end.

Definition call_method (c : Call) : Method :=
  match c with
  | Register _ | Login _ => POST
  | ManageFavorites m _ => m
  | _ => GET
  end.

(** A request with the part of the environment its handling reads. *)
Record Request := mkRequest {
  call : Call;
  remote_addr : string;
  (** the Authorization header: the identity of a valid bearer token, or
      [None] when the request has no such header (a header with a
      malformed, badly signed or expired token is not a value of this
      type) *)
  bearer : option Z;
  (** identity made available by [jwt_required] to [get_jwt_identity] *)
  jwt_identity : option Z;
  (** the limiter's verdict for this client address *)
  rate_limited : bool;
  (** [datetime.utcnow()] *)
  now : Time;
  (** the two readings of [time.time()] in [track_usage] *)
  start_time : Z;
  end_time : Z;
  (** the draw behind [order_by(db.func.random())] *)
  rnd : nat;
  (** [bcrypt.gensalt()] *)
  salt : string
}.

Definition with_identity (i : option Z) (r : Request) : Request :=
  mkRequest (call r) (remote_addr r) (bearer r) i (rate_limited r) (now r)
            (start_time r) (end_time r) (rnd r) (salt r).

(** The JSON bodies the views build. *)
Inductive Body :=
| ErrorBody (error : string)
| MsgBody (msg : string)
| MessageBody (message : string)
| RegisteredBody (message : string) (user : UserDict.t)
| LoginBody (access_token : string) (user : UserDict.t)
| FactsBody (facts : list FactDict.t) (page pages per_page total : Z)
| FactBody (fact : FactDict.t)
| FavoritesBody (facts : list FactDict.t)
| CategoriesBody (categories : list string)
| ProfileBody (user : UserDict.t) (favorites_count : Z)
| StatsBody (total_users active_users total_facts active_facts
             total_favorites api_calls_today : Z)
| HomeBody (fact : option FactDict.t)
| HealthBody (status database : string) (timestamp : Time).

(** What a view function returns: [jsonify(body)], a Response object whose
    [status_code] is 200, or the tuple [(jsonify(body), status)]. *)
Inductive Returned :=
| Jsonify (body : Body)
| WithStatus (body : Body) (status : Z).

(** A view function returns or raises. *)
Inductive Outcome :=
| Return (r : Returned)
| Raise.

Definition View := Request -> Store -> Outcome * Store.

(** [hasattr(response, 'status_code')] and, when it holds,
    [response.status_code]: a Response object has the attribute, a tuple
    does not. *)
Definition status_code_attr (r : Returned) : option Z :=
  match r with
  | Jsonify _ => Some 200
  | WithStatus _ _ => None
  end.

(** The status line the client receives once Flask has turned the returned
    value into a response. *)
Definition http_status (r : Returned) : Z :=
  match r with
  | Jsonify _ => 200
  | WithStatus _ status => status
  end.

Definition http_body (r : Returned) : Body :=
  match r with
  | Jsonify b => b
  | WithStatus b _ => b
  end.

(** [get_jwt_identity()]: the identity when [jwt_required] has verified a
    token for this request; it raises otherwise ([None]). *)
Definition get_jwt_identity (r : Request) : option Z := jwt_identity r.

(* ===================================================================== *)
(** * Queries                                                             *)
(* ===================================================================== *)

(** The database driver binds a Python integer as a 64-bit signed INTEGER
    and raises OverflowError for any other; the statement is not run.  The
    integers a client sends (a fact_id, the OFFSET of a page) meet this
    check in the views below.  Keys the database issued and the identity
    of a token the application signed (a [User.id]) are taken to pass
    it. *)
Definition bindable (n : Z) : bool := (- 2 ^ 63 <=? n) && (n <=? 2 ^ 63 - 1).

(** [Fact.query.get(id)], for an [id] the driver has bound *)
Definition fact_get (s : Store) (i : Z) : option Fact.t :=
  find (fun f => Fact.id f =? i) (facts s).

(** [User.query.get(id)] *)
Definition user_get (s : Store) (i : Z) : option User.t :=
  find (fun u => User.id u =? i) (users s).

(** [User.query.filter_by(username=name).first()] *)
Definition user_by_username (s : Store) (name : string) : option User.t :=
  find (fun u => String.eqb (User.username u) name) (users s).

(** [User.query.filter_by(email=mail).first()] *)
Definition user_by_email (s : Store) (mail : string) : option User.t :=
  find (fun u => String.eqb (User.email u) mail) (users s).

(** [Favorite.query.filter_by(user_id=u, fact_id=f).first()], for an [f] the
    driver has bound *)
Definition favorite_first (s : Store) (u f : Z) : option Favorite.t :=
  find (is_favorite u f) (favorites s).

(** [if category:] a query argument that is present and not empty. *)
Definition truthy (category : option string) : option string :=
  match category with
  | Some c => if String.eqb c EmptyString then None else Some c
  | None => None
  end.

(** [Fact.query.filter_by(is_active=True)], then
    [query.filter_by(category=category)] when a category is given. *)
Definition active_facts (s : Store) (category : option string) : list Fact.t :=
  let query := filter Fact.is_active (facts s) in
  match truthy category with
  | Some c => filter (fun f => String.eqb (Fact.category f) c) query
  | None => query
  end.

(** [query.order_by(db.func.random()).first()]: some row of the query,
    chosen by the draw; [None] on an empty query. *)
Definition random_first {A : Type} (draw : nat) (query : list A) : option A :=
  nth_error query (draw mod List.length query)%nat.

(** [db.session.query(Favorite, Fact).join(Fact).filter(
       Favorite.user_id == user_id, Fact.is_active == True).all()] *)
Definition favorites_join (s : Store) (user_id : Z)
  : list (Favorite.t * Fact.t) :=
  filter (fun row => (Favorite.user_id (fst row) =? user_id)
                     && Bool.eqb (Fact.is_active (snd row)) true)
    (flat_map (fun fav =>
                 map (fun f => (fav, f))
                     (filter (fun f => Fact.id f =? Favorite.fact_id fav)
                             (facts s)))
              (favorites s)).

(** Flask-SQLAlchemy's [Pagination], as [query.paginate(page=, per_page=,
    error_out=False)] builds it: with [error_out=False] a page below 1
    becomes 1 and a page size below 1 becomes the default 20 instead of
    aborting with 404; the items are
    [query.limit(per_page).offset((page - 1) * per_page)].  [Pagination.offset]
    is the OFFSET that statement binds; [paginate] is the object built
    when the driver could bind it. *)
Module Pagination.
Record t := mk {
  items : list Fact.t;
  page : Z;
  per_page : Z;
  total : Z
}.
(** the OFFSET of the items query for the requested page and page size *)
Definition offset (page per_page : Z) : Z :=
  ((if page <? 1 then 1 else page) - 1)
  * (if per_page <? 1 then 20 else per_page).
(** [ceil(total / per_page)], 0 for an empty query *)
Definition pages (p : t) : Z :=
  if total p =? 0 then 0 else (total p + per_page p - 1) / per_page p.
End Pagination.

Definition paginate (query : list Fact.t) (page per_page : Z) : Pagination.t :=
  let page := if page <? 1 then 1 else page in
  let per_page := if per_page <? 1 then 20 else per_page in
  Pagination.mk
    (firstn (Z.to_nat per_page) (skipn (Z.to_nat ((page - 1) * per_page)) query))
    page per_page (Z.of_nat (List.length query)).

(** [len(query.all())] as a Python integer *)
Definition count {A : Type} (query : list A) : Z := Z.of_nat (List.length query).

(** [distinct()] over a column, first occurrences kept *)
Fixpoint distinct (l : list string) : list string :=
  match l with
  | [] => []
  | x :: l' => x :: filter (fun y => negb (String.eqb y x)) (distinct l')
  end.

(* ===================================================================== *)
(** * app.py: the view functions                                          *)
(* ===================================================================== *)

Section App.

(** The collaborators the source imports: [bcrypt.hashpw(password, salt)],
    [bcrypt.checkpw(password, password_hash)] and flask_jwt_extended's
    [create_access_token(identity=...)], whose token also depends on the
    time of issue.  The two bcrypt calls, with the [encode('utf-8')] of
    their arguments, can raise (a password bcrypt refuses, a stored hash
    that is not one): [None]. *)
Variable hashpw : string -> string -> option string.
Variable checkpw : string -> string -> option bool.
Variable create_access_token : Z -> Time -> string.

(** [User.check_password]: what [bcrypt.checkpw] says of the password and
    the stored hash, or its exception *)
Definition check_password (u : User.t) (password : string) : option bool :=
  checkpw password (User.password_hash u).

Definition error (msg : string) (status : Z) : Outcome :=
  Return (WithStatus (ErrorBody msg) status).

Definition home : View := fun r s =>
  let fact := random_first (rnd r) (filter Fact.is_active (facts s)) in
  (Return (Jsonify (HomeBody (option_map fact_to_dict fact))), s).

Definition health_check : View := fun r s =>
  (Return (Jsonify (HealthBody "healthy" "healthy" (now r))), s).

Definition register (data : option (Json string)) : View := fun r s =>
  let d := match data with Some d => d | None => [] end in
  if json_falsy data
     || negb (forallb (fun k => json_has k d) ["username"; "email"; "password"])
  then (error "Missing required fields" 400, s)
  else
    match json_get "username" d, json_get "email" d, json_get "password" d with
    | Some username, Some email, Some password =>
        match user_by_username s username with
        | Some _ => (error "Username already exists" 400, s)
        | None =>
            match user_by_email s email with
            | Some _ => (error "Email already exists" 400, s)
            | None =>
                match hashpw password (salt r) with
                | None => (Raise, s)
                | Some hash =>
                    match commit (now r) s [AddUser username email hash] with
                    | Some s' =>
                        let user := new_user (now r) s username email hash in
                        (Return (WithStatus
                                   (RegisteredBody "User created successfully"
                                                   (user_to_dict user))
                                   201), s')
                    | None => (error "Failed to create user" 500, s)
                    end
                end
            end
        end
    | _, _, _ => (Raise, s)
    end.

Definition login (data : option (Json string)) : View := fun r s =>
  let d := match data with Some d => d | None => [] end in
  if json_falsy data
     || negb (forallb (fun k => json_has k d) ["username"; "password"])
  then (error "Missing username or password" 400, s)
  else
    match json_get "username" d, json_get "password" d with
    | Some username, Some password =>
        match user_by_username s username with
        | Some user =>
            match check_password user password with
            | None => (Raise, s)
            | Some verified =>
                if verified && User.is_active user
                then
                  let access_token :=
                    create_access_token (User.id user) (now r) in
                  (Return (Jsonify (LoginBody access_token
                                              (user_to_dict user))), s)
                else (error "Invalid credentials" 401, s)
            end
        | None => (error "Invalid credentials" 401, s)
        end
    | _, _ => (Raise, s)
    end.

(** The body of [get_facts] for a page whose OFFSET the driver binds. *)
Definition get_facts (page per_page : option Z) (category : option string)
  : View := fun r s =>
  let page := match page with Some p => p | None => 1 end in
  let per_page := Z.min (match per_page with Some n => n | None => 10 end) 50 in
  let query := active_facts s category in
  let facts := paginate query page per_page in
  (Return (Jsonify (FactsBody (map fact_to_dict (Pagination.items facts))
                              page (Pagination.pages facts) per_page
                              (Pagination.total facts))), s).

(** [GET /facts], the view function [get_facts] as it is routed: the items
    query of [query.paginate] binds its OFFSET first, and raises
    OverflowError out of the view when [(page - 1) * per_page] does not fit
    64 bits. *)
Definition get_facts_view (page per_page : option Z) (category : option string)
  : View := fun r s =>
  let p := match page with Some p => p | None => 1 end in
  let size := Z.min (match per_page with Some n => n | None => 10 end) 50 in
  if bindable (Pagination.offset p size)
  then get_facts page per_page category r s
  else (Raise, s).

(** After [commit] (or [rollback]) the session reloads the row, so
    [fact.to_dict()] shows what the store holds for it. *)
Definition random_fact (category : option string) : View := fun r s =>
  let query := active_facts s category in
  match random_first (rnd r) query with
  | None => (error "No facts found" 404, s)
  | Some fact =>
      let view_count := Fact.view_count fact + 1 in
      match commit (now r) s [SetViewCount (Fact.id fact) view_count] with
      | Some s' =>
          (Return (Jsonify (FactBody (fact_to_dict
                                        (set_view_count view_count fact)))), s')
      | None =>
          (Return (Jsonify (FactBody (fact_to_dict fact))), s)
      end
  end.

(** [GET /facts/random] among other requests.  The SELECT and the UPDATE are
    separate statements, and the UPDATE writes the value computed from the
    row as it was read ([fact.view_count += 1] is a read, an addition in
    Python and a write): [others] is what requests served concurrently
    commit between the two ([fun s => s] when the request runs alone). *)
Definition random_fact_among (others : Store -> Store)
    (category : option string) : View := fun r s =>
  let query := active_facts s category in
  match random_first (rnd r) query with
  | None => (error "No facts found" 404, others s)
  | Some fact =>
      let view_count := Fact.view_count fact + 1 in
      match commit (now r) (others s)
                   [SetViewCount (Fact.id fact) view_count] with
      | Some s' =>
          (Return (Jsonify (FactBody (fact_to_dict
                                        (set_view_count view_count fact)))), s')
      | None =>
          (Return (Jsonify (FactBody (fact_to_dict fact))), others s)
      end
  end.

Definition get_categories : View := fun r s =>
  let categories := distinct (map Fact.category (filter Fact.is_active (facts s))) in
  (Return (Jsonify (CategoriesBody categories)), s).

(** [GET /favorites] *)
Definition favorites_get (user_id : Z) : View := fun r s =>
  let favorites := favorites_join s user_id in
  (Return (Jsonify (FavoritesBody
                      (map (fun row => fact_to_dict (snd row)) favorites))), s).

(** [POST /favorites], the part that only reads: the validation of the
    body and the two SELECTs.  [inl] is an answer, or the OverflowError of
    [Fact.query.get] for a fact_id the driver cannot bind;
    [inr (user_id, fact_id)] is the Favorite about to be added to the
    session. *)
Definition favorites_post_check (user_id : Z) (data : option (Json Z))
    (s : Store) : Outcome + Z * Z :=
  let d := match data with Some d => d | None => [] end in
  if json_falsy data || negb (json_has "fact_id" d)
  then inl (error "Missing fact_id" 400)
  else
    match json_get "fact_id" d with
    | Some fact_id =>
        if negb (bindable fact_id) then inl Raise
        else
          match fact_get s fact_id with
          | Some fact =>
              if negb (Fact.is_active fact)
              then inl (error "Fact not found" 404)
              else
                match favorite_first s user_id fact_id with
                | Some _ => inl (error "Already in favorites" 400)
                | None => inr (user_id, fact_id)
                end
          | None => inl (error "Fact not found" 404)
          end
    | None => inl Raise
    end.

(** [POST /favorites], the INSERT and its [commit] in [try/except]. *)
Definition favorites_post_commit (user_id fact_id : Z) : View := fun r s =>
  match commit (now r) s [AddFavorite user_id fact_id] with
  | Some s' => (Return (WithStatus (MessageBody "Added to favorites") 201), s')
  | None => (error "Failed to add favorite" 500, s)
  end.

(** [POST /favorites].  The SELECTs and the INSERT are separate statements:
    [others] is what requests served concurrently commit between the two
    ([fun s => s] when the request runs alone). *)
Definition favorites_post_among (others : Store -> Store) (user_id : Z)
    (data : option (Json Z)) : View := fun r s =>
  match favorites_post_check user_id data s with
  | inl answer => (answer, others s)
  | inr (u, f) => favorites_post_commit u f r (others s)
  end.

Definition favorites_post : Z -> option (Json Z) -> View :=
  favorites_post_among (fun s => s).

(** [DELETE /favorites]; the lookup raises OverflowError for a fact_id the
    driver cannot bind. *)
Definition favorites_delete (user_id : Z) (data : option (Json Z))
  : View := fun r s =>
  let d := match data with Some d => d | None => [] end in
  if json_falsy data || negb (json_has "fact_id" d)
  then (error "Missing fact_id" 400, s)
  else
    match json_get "fact_id" d with
    | Some fact_id =>
        if negb (bindable fact_id) then (Raise, s)
        else
          match favorite_first s user_id fact_id with
          | None => (error "Not in favorites" 404, s)
          | Some favorite =>
              match commit (now r) s
                           [DeleteFavorite (Favorite.id favorite)] with
              | Some s' =>
                  (Return (Jsonify (MessageBody "Removed from favorites")), s')
              | None => (error "Failed to remove favorite" 500, s)
              end
          end
    | None => (Raise, s)
    end.

Definition manage_favorites (method : Method) (data : option (Json Z))
  : View := fun r s =>
  match get_jwt_identity r with
  | None => (Raise, s)
  | Some user_id =>
      match method with
      | GET => favorites_get user_id r s
      | POST => favorites_post user_id data r s
      | DELETE => favorites_delete user_id data r s
      end
  end.

Definition get_profile : View := fun r s =>
  match get_jwt_identity r with
  | None => (Raise, s)
  | Some user_id =>
      match user_get s user_id with
      | None => (error "User not found" 404, s)
      | Some user =>
          let favorites_count :=
            count (filter (fun fav => Favorite.user_id fav =? user_id)
                          (favorites s)) in
          (Return (Jsonify (ProfileBody (user_to_dict user) favorites_count)), s)
      end
  end.

(** [datetime.utcnow().date()]: the start of the current day, in seconds. *)
Definition today (t : Time) : Time := t - t mod 86400.

Definition admin_stats : View := fun r s =>
  (Return (Jsonify (StatsBody
     (count (users s))
     (count (filter User.is_active (users s)))
     (count (facts s))
     (count (filter Fact.is_active (facts s)))
     (count (favorites s))
     (count (filter (fun u => today (now r) <=? ApiUsage.timestamp u)
                    (api_usage s))))), s).

(* ===================================================================== *)
(** * app.py: decorators, seeding and routing                             *)
(* ===================================================================== *)

(** [track_usage]: run the view, read off a status code, write one
    [ApiUsage] row, hand the response on. *)
Definition track_usage (f : View) : View := fun r s =>
  let user_id := get_jwt_identity r in
  let '(out, s1) := f r s in
  let '(response, response_code) :=
    match out with
    | Return response =>
        (response,
         match status_code_attr response with
         | Some status_code => status_code
         | None => 200
         end)
    | Raise => (WithStatus (ErrorBody "Internal server error") 500, 500)
    end in
  let response_time := (end_time r - start_time r) * 1000 in
  let usage := AddUsage (endpoint_name (call r))
                        (method_name (call_method (call r)))
                        (remote_addr r) user_id response_code response_time in
  match commit (now r) s1 [usage] with
  | Some s2 => (Return response, s2)
  | None => (Return response, s1)
  end.

(** flask_jwt_extended's [jwt_required()]: for a request without an
    Authorization header the view is not called and the extension answers
    401 with its own body. *)
Definition jwt_required (f : View) : View := fun r s =>
  match bearer r with
  | Some identity => f (with_identity (Some identity) r) s
  | None =>
      (Return (WithStatus (MsgBody "Missing Authorization Header") 401), s)
  end.

(** flask_limiter: a request over the limit is answered by the 429 error
    handler before the view runs. *)
Definition limit (f : View) : View := fun r s =>
  if rate_limited r then (error "Rate limit exceeded" 429, s) else f r s.

Definition facts_data : list (string * string) :=
  [ ("Honey never spoils. Archaeologists have found pots of honey in ancient Egyptian tombs that are over 3,000 years old and still perfectly edible.", "food");
    ("A group of flamingos is called a 'flamboyance'.", "animals");
    ("Octopuses have three hearts and blue blood.", "animals");
    ("Bananas are berries, but strawberries aren't.", "food");
    ("A single cloud can weigh more than a million pounds.", "nature");
    ("Sharks have existed longer than trees.", "animals");
    ("The human brain uses about 20% of the body's total energy.", "science");
    ("There are more possible games of chess than atoms in the observable universe.", "science");
    ("Wombat poop is cube-shaped.", "animals");
    ("The shortest war in history lasted only 38-45 minutes.", "history");
    ("The Great Wall of China isn't visible from space with the naked eye.", "history");
    ("A group of owls is called a parliament.", "animals");
    ("Cleopatra lived closer to the Moon landing than to the construction of the Great Pyramid.", "history");
    ("The longest word in English has 189,819 letters and takes over 3 hours to pronounce.", "language");
    ("Your stomach gets an entirely new lining every 3-5 days.", "science") ].

(** [seed_data], run once by [create_app] after [db.create_all()]. *)
Definition seed_data (now : Time) (s : Store) : Store :=
  if count (facts s) =? 0 then
    match commit now s (map (fun row => AddFact (fst row) (snd row)) facts_data) with
    | Some s' => s'
    | None => s
    end
  else s.

(** The routing table of [create_app], each view under its decorators.
    The limiter's default limits cover every route.  A request comes in
    with no verified identity: only [jwt_required] sets one. *)
Definition app : View := fun r s =>
  limit
    (match call r with
     | Home => track_usage home
     | HealthCheck => track_usage health_check
     | Register data => track_usage (register data)
     | Login data => track_usage (login data)
     | GetFacts page per_page category =>
         track_usage (get_facts_view page per_page category)
     | RandomFact category => track_usage (random_fact category)
     | GetCategories => track_usage get_categories
     | ManageFavorites method data =>
         jwt_required (track_usage (manage_favorites method data))
     | GetProfile => jwt_required (track_usage get_profile)
     | AdminStats => jwt_required (track_usage admin_stats)
     end) (with_identity None r) s.

(** One request served from start to end, with no other request in
    between; the interleaving of two requests is modelled where a property
    depends on it, by [favorites_post_among] and [random_fact_among]. *)
Inductive step : Store -> Store -> Prop :=
| step_request (r : Request) (s : Store) : step s (snd (app r s)).

(** The stores the system can be in when it serves its requests one at a
    time: the seeded empty database, then any number of requests. *)
Inductive reachable : Store -> Prop :=
| reachable_seeded (now : Time) : reachable (seed_data now empty_store)
| reachable_step (s s' : Store) : reachable s -> step s s' -> reachable s'.

End App.

(** The status the client sees: Flask answers an exception that nothing
    handles with 500. *)
Definition status_of (o : Outcome) : Z :=
  match o with
  | Return r => http_status r
  | Raise => 500
  end.

(** The [facts] list of a [GET /facts] response body. *)
Definition returned_facts (o : Outcome) : list FactDict.t :=
  match o with
  | Return (Jsonify (FactsBody items _ _ _ _)) => items
  | _ => []
  end.

(** The [response_code] column of the last [ApiUsage] row. *)
Definition last_response_code (s : Store) : option Z :=
  option_map ApiUsage.response_code (last (map Some (api_usage s)) None).


(* ===================================================================== *)
(** * Sample data                                                         *)
(* ===================================================================== *)

Module Sample.

Definition octopus : Fact.t :=
  Fact.mk 1 "Octopuses have three hearts and blue blood." "animals" true 0 5.

Definition wombat : Fact.t :=
  Fact.mk 2 "Wombat poop is cube-shaped." "animals" true 0 3.

Definition retired : Fact.t :=
  Fact.mk 3 "Inactive fact" "test" false 0 0.

Definition alice : User.t :=
  User.mk 1 "alice" "alice@x.com" "hash:pw123456" true 0.

Definition bob : User.t :=
  User.mk 2 "bob" "bob@x.com" "hash:hunter2" false 0.

Definition store : Store :=
  mkStore [alice; bob] [octopus; wombat; retired] [] [].

(** A request from alice (user 1) with a valid token, served at time 100. *)
Definition request (c : Call) : Request :=
  mkRequest c "127.0.0.1" (Some 1) (Some 1) false 100 7 9 0 "salt".

(** An anonymous request. *)
Definition anonymous (c : Call) : Request :=
  mkRequest c "127.0.0.1" None None false 100 7 9 0 "salt".

Definition fact_id_body (f : Z) : option (Json Z) := Some [("fact_id", f)].

(** A toy bcrypt: the hash is the password after a tag, and a password of
    more than 72 bytes is refused with an exception, as bcrypt 5 does. *)
Definition toy_hashpw (password salt : string) : option string :=
  if (72 <? String.length password)%nat then None
  else Some ("hash:" ++ password).

Definition toy_checkpw (password hash : string) : option bool :=
  if (72 <? String.length password)%nat then None
  else Some (String.eqb ("hash:" ++ password) hash).

Definition toy_token (identity : Z) (t : Time) : string :=
  if identity =? 1 then "token-1" else "token".

Definition add_request : Request :=
  request (ManageFavorites POST (fact_id_body 1)).



(** A pick among the animal facts; the draw 0 selects the first of them. *)
Definition pick_animals : Request := anonymous (RandomFact (Some "animals")).

(** Two picks of other clients, served while a third is between its SELECT
    and its UPDATE. *)
Definition two_picks (s : Store) : Store :=
  snd (random_fact (Some "animals") pick_animals
         (snd (random_fact (Some "animals") pick_animals s))).




Definition carol_body : Json string :=
  [("username", "carol"); ("email", "carol@x.com"); ("password", "s3cret")].

Definition carol_login : Json string :=
  [("username", "carol"); ("password", "s3cret")].

Definition alice_again : Json string :=
  [("username", "alice"); ("email", "other@x.com"); ("password", "pw")].

(** Another request of alice adding fact 1, committed while a first one is
    between its SELECTs and its INSERT. *)
Definition concurrent_add (s : Store) : Store :=
  snd (favorites_post 1 (fact_id_body 1) add_request s).

End Sample.

(* ===================================================================== *)
(** * Vocabulary of the statements                                       *)
(* ===================================================================== *)

(** No row of the Favorite table pairs [u] with [f]. *)
Definition no_favorite (s : Store) (u f : Z) : Prop :=
  forall fav, In fav (favorites s) ->
    ~ (Favorite.user_id fav = u /\ Favorite.fact_id fav = f).

(** Some row of the Favorite table pairs [u] with [f]. *)
Definition has_favorite (s : Store) (u f : Z) : Prop :=
  exists fav, In fav (favorites s) /\
    Favorite.user_id fav = u /\ Favorite.fact_id fav = f.

(** No row of the Fact table has primary key [i]. *)
Definition no_fact (s : Store) (i : Z) : Prop :=
  forall fact, In fact (facts s) -> Fact.id fact <> i.

(** The row of fact [i] with its view counter one higher; any other row
    as it is. *)
Definition bump (i : Z) (f : Fact.t) : Fact.t :=
  if Fact.id f =? i then set_view_count (Fact.view_count f + 1) f else f.

(** [id] is the primary key of the Fact table. *)
Definition fact_ids_unique (s : Store) : Prop :=
  NoDup (map Fact.id (facts s)).

(** Row by row, the same facts with view counters that did not go down. *)
Definition counters_grow (before after : list Fact.t) : Prop :=
  Forall2 (fun f f' => Fact.id f' = Fact.id f /\
                       Fact.view_count f <= Fact.view_count f')
          before after.

(** No row of the User table has this username. *)
Definition no_user (s : Store) (name : string) : Prop :=
  forall u, In u (users s) -> User.username u <> name.

(** What one view does to the Fact table: nothing, or one more view of one
    of its rows. *)
Definition facts_step (before after : list Fact.t) : Prop :=
  after = before \/
  exists fact, In fact before /\
    after = map (fun f => if Fact.id f =? Fact.id fact
                          then set_view_count (Fact.view_count fact + 1) f
                          else f) before.

(** What one view does to the Favorite table: nothing, one new row for a
    fact of the Fact table, or the removal of rows. *)
Definition favorites_step (s s' : Store) : Prop :=
  favorites s' = favorites s \/
  (exists fav fact,
     favorites s' = (favorites s ++ [fav])%list /\
     In fact (facts s) /\ Fact.id fact = Favorite.fact_id fav) \/
  (exists keep, favorites s' = filter keep (favorites s)).

(** Referential integrity as the running system keeps it: every fact is
    active and every Favorite row points at a fact. *)
Definition favorites_refer (s : Store) : Prop :=
  Forall (fun f => Fact.is_active f = true) (facts s) /\
  forall fav, In fav (favorites s) ->
    exists fact, In fact (facts s) /\ Fact.id fact = Favorite.fact_id fav.

(* ===================================================================== *)
(** * Vocabulary of the statements about the rest of app.py              *)
(* ===================================================================== *)

(** The (user, fact) pair of a Favorite row. *)
Definition favorite_pair (fav : Favorite.t) : Z * Z :=
  (Favorite.user_id fav, Favorite.fact_id fav).

(** What models.py declares about keys: [primary_key=True] on every [id],
    [unique=True] on [User.username] and [User.email], and the
    [unique_user_fact] constraint on Favorite. *)
Record schema (s : Store) : Prop := mkSchema {
  user_ids_unique : NoDup (map User.id (users s));
  usernames_unique : NoDup (map User.username (users s));
  emails_unique : NoDup (map User.email (users s));
  fact_keys_unique : NoDup (map Fact.id (facts s));
  favorite_ids_unique : NoDup (map Favorite.id (favorites s));
  favorite_pairs_unique : NoDup (map favorite_pair (favorites s));
  usage_ids_unique : NoDup (map ApiUsage.id (api_usage s))
}.

(** A store obtained from another by committed units of work only. *)
Inductive evolves : Store -> Store -> Prop :=
| evolves_refl (s : Store) : evolves s s
| evolves_commit (t : Time) (s s1 s2 : Store) (ps : list Pending) :
    evolves s s1 -> commit t s1 ps = Some s2 -> evolves s s2.


(** The row [track_usage] writes for a request, given its key and the
    status code it read off. *)
Definition usage_row (i : Z) (r : Request) (response_code : Z) : ApiUsage.t :=
  ApiUsage.mk i (endpoint_name (call r)) (method_name (call_method (call r)))
              (remote_addr r) (get_jwt_identity r) response_code
              ((end_time r - start_time r) * 1000) (now r).

(** The routes behind [jwt_required()]. *)
Definition protected (c : Call) : bool :=
  match c with
  | ManageFavorites _ _ | GetProfile | AdminStats => true
  | _ => false
  end.

(** The facts list of pages 1 to n of [GET /facts], one after the other. *)
Definition pages_upto (n : nat) (per_page : option Z) (category : option string)
    (r : Request) (s : Store) : list FactDict.t :=
  flat_map (fun p => returned_facts
                       (fst (get_facts (Some (Z.of_nat p)) per_page category r s)))
           (seq 1 n).

(** [app] hands the request on without a verified identity; the routing
    reads fields this does not change. *)
Ltac open_app r :=
  unfold app, limit;
  change (rate_limited (with_identity None r)) with (rate_limited r);
  change (call (with_identity None r)) with (call r).

Ltac open_jwt r :=
  unfold jwt_required;
  try change (bearer (with_identity None r)) with (bearer r).

(* ===================================================================== *)
(** * Facts about the queries and the unit of work                        *)
(* ===================================================================== *)

Lemma find_None_iff (A : Type) (p : A -> bool) (l : list A) :
  find p l = None <-> forall x, In x l -> p x = false.
Proof.
  split.
  - intros H x Hx. exact (find_none p l H x Hx).
  - induction l as [|a l IH]; intros H; simpl; [reflexivity|].
    rewrite (H a (or_introl eq_refl)). apply IH.
    intros x Hx. apply H. right. exact Hx.
Qed.

Lemma find_existsb (A : Type) (p : A -> bool) (l : list A) :
  existsb p l = match find p l with Some _ => true | None => false end.
Proof.
  induction l as [|a l IH]; simpl; [reflexivity|].
  destruct (p a); simpl; [reflexivity | exact IH].
Qed.

Lemma is_favorite_iff (u f : Z) (fav : Favorite.t) :
  is_favorite u f fav = true <->
  Favorite.user_id fav = u /\ Favorite.fact_id fav = f.
Proof.
  unfold is_favorite. rewrite andb_true_iff, !Z.eqb_eq. tauto.
Qed.

Lemma favorite_first_None (s : Store) (u f : Z) :
  favorite_first s u f = None <-> no_favorite s u f.
Proof.
  unfold favorite_first, no_favorite. rewrite find_None_iff.
  split; intros H fav Hin.
  - rewrite <- is_favorite_iff, (H fav Hin). discriminate.
  - destruct (is_favorite u f fav) eqn:E; [|reflexivity].
    exfalso. apply (H fav Hin). apply is_favorite_iff. exact E.
Qed.

Lemma favorite_first_Some (s : Store) (u f : Z) (fav : Favorite.t) :
  favorite_first s u f = Some fav ->
  In fav (favorites s) /\ Favorite.user_id fav = u /\ Favorite.fact_id fav = f.
Proof.
  unfold favorite_first. intros H. apply find_some in H.
  destruct H as [Hin Hp]. apply is_favorite_iff in Hp. tauto.
Qed.

Lemma has_favorite_first (s : Store) (u f : Z) :
  has_favorite s u f <-> exists fav, favorite_first s u f = Some fav.
Proof.
  split.
  - intros (fav & Hin & Hu & Hf).
    destruct (favorite_first s u f) as [fav'|] eqn:E; [eauto|].
    exfalso. apply favorite_first_None in E. apply (E fav Hin). tauto.
  - intros (fav & E). exists fav. apply favorite_first_Some. exact E.
Qed.

Lemma favorite_exists_first (s : Store) (u f : Z) :
  favorite_exists s u f =
  match favorite_first s u f with Some _ => true | None => false end.
Proof. apply find_existsb. Qed.

Lemma favorite_exists_true (s : Store) (u f : Z) :
  favorite_exists s u f = true <-> has_favorite s u f.
Proof.
  rewrite favorite_exists_first, has_favorite_first.
  destruct (favorite_first s u f); split; intros H;
    try discriminate; eauto. destruct H as [? H]. discriminate.
Qed.

Lemma fact_get_None (s : Store) (i : Z) :
  fact_get s i = None <-> no_fact s i.
Proof.
  unfold fact_get, no_fact. rewrite find_None_iff.
  split; intros H fact Hin; specialize (H fact Hin).
  - apply Z.eqb_neq. exact H.
  - apply Z.eqb_neq. exact H.
Qed.

Lemma fact_get_Some (s : Store) (i : Z) (fact : Fact.t) :
  fact_get s i = Some fact -> In fact (facts s) /\ Fact.id fact = i.
Proof.
  unfold fact_get. intros H. apply find_some in H.
  rewrite Z.eqb_eq in H. exact H.
Qed.

Lemma json_get_not_falsy (V : Type) (k : string) (d : Json V) (v : V) :
  json_get k d = Some v ->
  json_falsy (Some d) = false /\ json_has k d = true.
Proof.
  intros H. unfold json_has. rewrite H. split; [|reflexivity].
  destruct d; [discriminate H | reflexivity].
Qed.

Lemma next_id_above (ids : list Z) (i : Z) : In i ids -> i < next_id ids.
Proof.
  unfold next_id. induction ids as [|a ids IH]; cbn [fold_right In]; [tauto|].
  intros [->|H]; [lia|]. specialize (IH H). lia.
Qed.

(** The check of [POST /favorites], case by case. *)
Lemma favorites_post_check_cases (u f : Z) (d : Json Z) (s : Store) :
  json_get "fact_id" d = Some f ->
  favorites_post_check u (Some d) s =
  if bindable f then
    match fact_get s f with
    | None => inl (error "Fact not found" 404)
    | Some fact =>
        if Fact.is_active fact
        then if favorite_exists s u f
             then inl (error "Already in favorites" 400)
             else inr (u, f)
        else inl (error "Fact not found" 404)
    end
  else inl Raise.
Proof.
  intros Hd. unfold favorites_post_check.
  destruct (@json_get_not_falsy _ _ _ _ Hd) as [-> ->]. simpl. rewrite Hd.
  destruct (bindable f); [|reflexivity]. cbn [negb].
  destruct (fact_get s f) as [fact|]; [|reflexivity].
  rewrite favorite_exists_first.
  destruct (Fact.is_active fact); simpl; [|reflexivity].
  destruct (favorite_first s u f); reflexivity.
Qed.

(* ===================================================================== *)
(** * Favorites Manager: add                                              *)
(* ===================================================================== *)

Lemma commit_add_favorite (now : Time) (s : Store) (u f : Z) :
  commit now s [AddFavorite u f] =
  if favorite_exists s u f then None
  else Some (mkStore (users s) (facts s)
               (favorites s ++
                  [Favorite.mk (next_id (map Favorite.id (favorites s))) u f now])
               (api_usage s)).
Proof. simpl. destruct (favorite_exists s u f); reflexivity. Qed.

(** What the code does when the (user, fact) row comes to exist between
    the existence check and the insert: the uniqueness constraint rejects
    the insert, the transaction is rolled back (this request adds no row)
    and the view returns the tuple of its [except] branch. *)
Theorem racing_add_is_server_error
    (others : Store -> Store) (user_id : Z) (data : option (Json Z))
    (r : Request) (s : Store) (u f : Z) :
  favorites_post_check user_id data s = inr (u, f) ->
  has_favorite (others s) u f ->
  favorites_post_among others user_id data r s
  = (error "Failed to add favorite" 500, others s).
Proof.
  intros Hcheck Hrow. unfold favorites_post_among. rewrite Hcheck.
  unfold favorites_post_commit. rewrite commit_add_favorite.
  apply favorite_exists_true in Hrow. rewrite Hrow. reflexivity.
Qed.

Lemma racing_add_is_server_error_witness :
  favorites_post_among Sample.concurrent_add 1 (Sample.fact_id_body 1)
    Sample.add_request Sample.store
  = (error "Failed to add favorite" 500, Sample.concurrent_add Sample.store).
Proof.
  apply (@racing_add_is_server_error Sample.concurrent_add 1
           (Sample.fact_id_body 1) Sample.add_request Sample.store 1 1).
  - reflexivity.
  - apply favorite_exists_true. reflexivity.
Defined.

(** C1 at a failing input: two requests of user 1 add fact 1, both pass
    the existence check on the same store, the other one commits first.
    The claim (and the duplicate path of the view, which answers 400 when
    its check finds the row) wants AlreadyExists for this one; the code
    answers 500. *)
Lemma racing_add_not_already_exists :
  favorites_post_check 1 (Sample.fact_id_body 1) Sample.store = inr (1, 1) /\
  favorite_exists Sample.store 1 1 = false /\
  favorite_exists (Sample.concurrent_add Sample.store) 1 1 = true /\
  status_of (fst (favorites_post_among Sample.concurrent_add 1
                    (Sample.fact_id_body 1) Sample.add_request Sample.store))
  = 500 /\
  status_of (fst (favorites_post_among Sample.concurrent_add 1
                    (Sample.fact_id_body 1) Sample.add_request Sample.store))
  <> 400.
Proof. repeat split; try reflexivity. discriminate. Qed.




(* ===================================================================== *)
(** * Favorites Manager: remove and list                                  *)
(* ===================================================================== *)

Lemma find_app_last (A : Type) (p : A -> bool) (l : list A) (x : A) :
  find p l = None -> p x = true -> find p (l ++ [x]) = Some x.
Proof.
  induction l as [|a l IH]; simpl; intros Hl Hx.
  - rewrite Hx. reflexivity.
  - destruct (p a); [discriminate Hl | exact (IH Hl Hx)].
Qed.

Lemma filter_all (A : Type) (p : A -> bool) (l : list A) :
  (forall x, In x l -> p x = true) -> filter p l = l.
Proof.
  induction l as [|a l IH]; simpl; intros H; [reflexivity|].
  rewrite (H a (or_introl eq_refl)). f_equal. apply IH.
  intros x Hx. apply H. right. exact Hx.
Qed.

Lemma filter_fresh_id (l : list Favorite.t) :
  filter (fun fav => negb (Favorite.id fav =? next_id (map Favorite.id l))) l = l.
Proof.
  apply filter_all. intros fav Hin.
  assert (H : Favorite.id fav < next_id (map Favorite.id l)).
  { apply next_id_above. apply in_map. exact Hin. }
  apply negb_true_iff, Z.eqb_neq. lia.
Qed.

(** [DELETE /favorites], case by case. *)
Lemma favorites_delete_cases (u f : Z) (d : Json Z) (r : Request) (s : Store) :
  json_get "fact_id" d = Some f ->
  favorites_delete u (Some d) r s =
  if bindable f then
    match favorite_first s u f with
    | None => (error "Not in favorites" 404, s)
    | Some fav =>
        (Return (Jsonify (MessageBody "Removed from favorites")),
         mkStore (users s) (facts s)
           (filter (fun x => negb (Favorite.id x =? Favorite.id fav))
                   (favorites s))
           (api_usage s))
    end
  else (Raise, s).
Proof.
  intros Hd. unfold favorites_delete.
  destruct (@json_get_not_falsy _ _ _ _ Hd) as [-> ->]. simpl. rewrite Hd.
  destruct (bindable f); [|reflexivity]. cbn [negb].
  destruct (favorite_first s u f); reflexivity.
Qed.

(** What a successful add leaves behind. *)
Lemma favorites_post_created (u f : Z) (d : Json Z) (r : Request) (s s1 : Store) :
  json_get "fact_id" d = Some f ->
  favorites_post u (Some d) r s
  = (Return (WithStatus (MessageBody "Added to favorites") 201), s1) ->
  bindable f = true /\
  favorite_first s u f = None /\
  s1 = mkStore (users s) (facts s)
         (favorites s ++
            [Favorite.mk (next_id (map Favorite.id (favorites s))) u f (now r)])
         (api_usage s).
Proof.
  intros Hd. unfold favorites_post, favorites_post_among.
  rewrite (@favorites_post_check_cases u f d s Hd).
  destruct (bindable f); [|discriminate].
  destruct (fact_get s f) as [fact|]; [|discriminate].
  destruct (Fact.is_active fact); [|discriminate].
  rewrite favorite_exists_first.
  destruct (favorite_first s u f) eqn:E; [discriminate|].
  unfold favorites_post_commit. rewrite commit_add_favorite.
  rewrite favorite_exists_first, E.
  intros H. injection H as <-. repeat split; reflexivity.
Qed.





Lemma favorites_join_In (s : Store) (u : Z) (row : Favorite.t * Fact.t) :
  In row (favorites_join s u) <->
  In (fst row) (favorites s) /\ In (snd row) (facts s) /\
  Fact.id (snd row) = Favorite.fact_id (fst row) /\
  Favorite.user_id (fst row) = u /\ Fact.is_active (snd row) = true.
Proof.
  unfold favorites_join. rewrite filter_In, in_flat_map, andb_true_iff.
  rewrite Z.eqb_eq. destruct row as [fav fact]. cbn [fst snd]. split.
  - intros [(fav' & Hfav & Hmap) [Hu Hact]].
    apply in_map_iff in Hmap. destruct Hmap as (fact' & Heq & Hfact).
    injection Heq as -> ->. apply filter_In in Hfact.
    destruct Hfact as [Hfact Hid]. apply Z.eqb_eq in Hid.
    apply eqb_prop in Hact. tauto.
  - intros (Hfav & Hfact & Hid & Hu & Hact). split.
    + exists fav. split; [exact Hfav|]. apply in_map_iff. exists fact.
      split; [reflexivity|]. apply filter_In. split; [exact Hfact|].
      apply Z.eqb_eq. exact Hid.
    + split; [exact Hu|]. rewrite Hact. reflexivity.
Qed.

(** C8: list(u) (GET /favorites) returns the dicts of joined
    (Favorite, Fact) rows, each of which is a Favorite row of u whose fact
    is active; it returns none whose fact is inactive. *)
Theorem favorites_list_only_active
    (u : Z) (data : option (Json Z)) (r : Request) (s : Store) :
  get_jwt_identity r = Some u ->
  exists rows,
    manage_favorites GET data r s
    = (Return (Jsonify (FavoritesBody
                          (map (fun row => fact_to_dict (snd row)) rows))), s) /\
    Forall (fun row =>
              In (fst row) (favorites s) /\ In (snd row) (facts s) /\
              Favorite.user_id (fst row) = u /\
              Fact.id (snd row) = Favorite.fact_id (fst row) /\
              Fact.is_active (snd row) = true) rows /\
    ~ exists row, In row rows /\ Fact.is_active (snd row) = false.
Proof.
  intros Hid. exists (favorites_join s u). unfold manage_favorites.
  rewrite Hid. split; [reflexivity|]. split.
  - apply Forall_forall. intros row Hrow. apply favorites_join_In in Hrow. tauto.
  - intros (row & Hrow & Hinactive). apply favorites_join_In in Hrow.
    destruct Hrow as (_ & _ & _ & _ & Hact). congruence.
Qed.

Lemma favorites_list_only_active_witness :
  exists rows,
    manage_favorites GET None (Sample.request (ManageFavorites GET None))
      (Sample.concurrent_add Sample.store)
    = (Return (Jsonify (FavoritesBody
                          (map (fun row => fact_to_dict (snd row)) rows))),
       Sample.concurrent_add Sample.store) /\
    Forall (fun row =>
              In (fst row) (favorites (Sample.concurrent_add Sample.store)) /\
              In (snd row) (facts (Sample.concurrent_add Sample.store)) /\
              Favorite.user_id (fst row) = 1 /\
              Fact.id (snd row) = Favorite.fact_id (fst row) /\
              Fact.is_active (snd row) = true) rows /\
    ~ exists row, In row rows /\ Fact.is_active (snd row) = false.
Proof.
  apply (@favorites_list_only_active 1 None
           (Sample.request (ManageFavorites GET None))
           (Sample.concurrent_add Sample.store)).
  reflexivity.
Defined.

(* ===================================================================== *)
(** * Random Fact Selector                                                *)
(* ===================================================================== *)

Lemma random_first_In (A : Type) (draw : nat) (l : list A) (x : A) :
  random_first draw l = Some x -> In x l.
Proof. unfold random_first. apply nth_error_In. Qed.

Lemma random_first_nonempty (A : Type) (draw : nat) (l : list A) :
  l <> [] -> exists x, random_first draw l = Some x.
Proof.
  intros Hl. unfold random_first.
  destruct (nth_error l (draw mod List.length l)%nat) as [x|] eqn:E; [eauto|].
  exfalso. apply nth_error_None in E.
  assert (List.length l <> 0%nat) by (destruct l; [congruence | discriminate]).
  pose proof (Nat.mod_upper_bound draw (List.length l) H). lia.
Qed.

Lemma active_facts_In (s : Store) (category : option string) (f : Fact.t) :
  In f (active_facts s category) <->
  In f (facts s) /\ Fact.is_active f = true /\
  (forall c, truthy category = Some c -> Fact.category f = c).
Proof.
  unfold active_facts. destruct (truthy category) as [c|].
  - rewrite !filter_In, String.eqb_eq. split.
    + intros [[Hin Hact] Hc]. repeat split; try assumption.
      intros c' [= <-]. exact Hc.
    + intros (Hin & Hact & Hc). auto.
  - rewrite filter_In. split.
    + intros [Hin Hact]. repeat split; try assumption. discriminate.
    + tauto.
Qed.

Lemma unique_by_id (l : list Fact.t) (f g : Fact.t) :
  NoDup (map Fact.id l) -> In f l -> In g l -> Fact.id f = Fact.id g -> f = g.
Proof.
  induction l as [|a l IH]; simpl; intros Hnd Hf Hg Hid; [tauto|].
  inversion Hnd as [|? ? Hnotin Hnd']; subst.
  destruct Hf as [->|Hf], Hg as [->|Hg].
  - reflexivity.
  - exfalso. apply Hnotin. rewrite Hid. apply in_map. exact Hg.
  - exfalso. apply Hnotin. rewrite <- Hid. apply in_map. exact Hf.
  - exact (IH Hnd' Hf Hg Hid).
Qed.

(** With [id] a key, writing the picked row's counter plus one into the rows
    with its id is adding one to that row alone. *)
Lemma set_view_count_is_bump (l : list Fact.t) (fact : Fact.t) :
  NoDup (map Fact.id l) -> In fact l ->
  map (fun f => if Fact.id f =? Fact.id fact
                then set_view_count (Fact.view_count fact + 1) f else f) l
  = map (bump (Fact.id fact)) l.
Proof.
  intros Hnd Hin. apply map_ext_in. intros f Hf. unfold bump.
  destruct (Fact.id f =? Fact.id fact) eqn:E; [|reflexivity].
  apply Z.eqb_eq in E.
  rewrite (@unique_by_id l f fact Hnd Hf Hin E). reflexivity.
Qed.



(** The pick of the sample store, in numbers: the counters 5, 3, 0 become
    6, 3, 0 and the response shows 6. *)
Lemma random_fact_sample :
  map Fact.view_count (facts Sample.store) = [5; 3; 0] /\
  map Fact.view_count
      (facts (snd (random_fact (Some "animals") Sample.pick_animals
                     Sample.store))) = [6; 3; 0] /\
  fst (random_fact (Some "animals") Sample.pick_animals Sample.store)
  = Return (Jsonify (FactBody
      (FactDict.mk 1 "Octopuses have three hearts and blue blood." "animals"
                   6 0))).
Proof. repeat split. Qed.

(* ===================================================================== *)
(** * Auth Gate: login                                                    *)
(* ===================================================================== *)

Lemma user_by_username_None (s : Store) (name : string) :
  user_by_username s name = None <-> no_user s name.
Proof.
  unfold user_by_username, no_user. rewrite find_None_iff.
  split; intros H u Hin; specialize (H u Hin); apply String.eqb_neq; exact H.
Qed.

Lemma user_by_username_Some (s : Store) (name : string) (u : User.t) :
  user_by_username s name = Some u -> In u (users s) /\ User.username u = name.
Proof.
  unfold user_by_username. intros H. apply find_some in H.
  rewrite String.eqb_eq in H. exact H.
Qed.

Section Auth.

Variable checkpw : string -> string -> option bool.
Variable create_access_token : Z -> Time -> string.

(** [login] on a body that carries both fields. *)
Lemma login_cases (d : Json string) (username password : string)
    (r : Request) (s : Store) :
  json_get "username" d = Some username ->
  json_get "password" d = Some password ->
  login checkpw create_access_token (Some d) r s =
  match user_by_username s username with
  | Some user =>
      match checkpw password (User.password_hash user) with
      | None => (Raise, s)
      | Some verified =>
          if verified && User.is_active user
          then (Return (Jsonify (LoginBody
                                   (create_access_token (User.id user) (now r))
                                   (user_to_dict user))), s)
          else (error "Invalid credentials" 401, s)
      end
  | None => (error "Invalid credentials" 401, s)
  end.
Proof.
  intros Hu Hp. unfold login.
  destruct (@json_get_not_falsy _ _ _ _ Hu) as [-> Hhas_u].
  destruct (@json_get_not_falsy _ _ _ _ Hp) as [_ Hhas_p].
  cbn [forallb]. rewrite Hhas_u, Hhas_p. cbn [andb orb negb].
  rewrite Hu, Hp. reflexivity.
Qed.


End Auth.



(* ===================================================================== *)
(** * Usage Recorder                                                      *)
(* ===================================================================== *)

Lemma commit_usage (t : Time) (s : Store) (ep m ip : string) (uid : option Z)
    (code ms : Z) :
  commit t s [AddUsage ep m ip uid code ms]
  = Some (mkStore (users s) (facts s) (favorites s)
            (api_usage s ++
               [ApiUsage.mk (next_id (map ApiUsage.id (api_usage s)))
                            ep m ip uid code ms t])).
Proof. reflexivity. Qed.

Lemma last_response_code_app (us fs : _) (favs : _) (rows : list ApiUsage.t)
    (row : ApiUsage.t) :
  last_response_code (mkStore us fs favs (rows ++ [row]))
  = Some (ApiUsage.response_code row).
Proof.
  unfold last_response_code. cbn [api_usage].
  rewrite map_app. cbn [map]. rewrite last_last. reflexivity.
Qed.

(** A view that raises: the row says 500 and the caller gets the generic
    body with status 500. *)
Lemma track_usage_raise (f : View) (r : Request) (s s1 : Store) :
  f r s = (Raise, s1) ->
  fst (track_usage f r s)
  = Return (WithStatus (ErrorBody "Internal server error") 500) /\
  last_response_code (snd (track_usage f r s)) = Some 500.
Proof.
  intros H. unfold track_usage. rewrite H, commit_usage. cbn [fst snd].
  split; [reflexivity | apply last_response_code_app].
Qed.

(** A view that returns a bare response object: the row says 200, the
    status of that object. *)
Lemma track_usage_jsonify (f : View) (r : Request) (s s1 : Store) (b : Body) :
  f r s = (Return (Jsonify b), s1) ->
  fst (track_usage f r s) = Return (Jsonify b) /\
  last_response_code (snd (track_usage f r s)) = Some 200.
Proof.
  intros H. unfold track_usage. rewrite H, commit_usage. cbn [fst snd].
  split; [reflexivity | apply last_response_code_app].
Qed.

(** A view that returns a [(response, status)] tuple: the caller gets
    [status], the row says 200 whatever [status] is. *)
Lemma track_usage_tuple (f : View) (r : Request) (s s1 : Store) (b : Body)
    (status : Z) :
  f r s = (Return (WithStatus b status), s1) ->
  status_of (fst (track_usage f r s)) = status /\
  last_response_code (snd (track_usage f r s)) = Some 200.
Proof.
  intros H. unfold track_usage. rewrite H, commit_usage. cbn [fst snd].
  split; [reflexivity | apply last_response_code_app].
Qed.

(** C4 at a failing input: [GET /facts/random?category=nothing] on a store
    with no fact of that category.  The caller receives 404; the ApiUsage
    row written for the request carries 200. *)
Theorem usage_row_misses_tuple_status :
  status_of (fst (app Sample.toy_hashpw Sample.toy_checkpw Sample.toy_token
                    (Sample.anonymous (RandomFact (Some "nothing")))
                    Sample.store)) = 404 /\
  last_response_code
    (snd (app Sample.toy_hashpw Sample.toy_checkpw Sample.toy_token
            (Sample.anonymous (RandomFact (Some "nothing")))
            Sample.store)) = Some 200.
Proof. split; reflexivity. Qed.

(* ===================================================================== *)
(** * GET /facts: pagination                                              *)
(* ===================================================================== *)



Lemma get_facts_eq (page per_page : option Z) (category : option string)
    (r : Request) (s : Store) :
  get_facts page per_page category r s =
  let p := match page with Some p => p | None => 1 end in
  let pp := Z.min (match per_page with Some n => n | None => 10 end) 50 in
  let facts := paginate (active_facts s category) p pp in
  (Return (Jsonify (FactsBody (map fact_to_dict (Pagination.items facts))
                              p (Pagination.pages facts) pp
                              (Pagination.total facts))), s).
Proof. reflexivity. Qed.








(* ===================================================================== *)
(** * The view counter across the whole system                            *)
(* ===================================================================== *)

Lemma counters_grow_refl (l : list Fact.t) : counters_grow l l.
Proof.
  unfold counters_grow. induction l as [|f l IH]; constructor; [|exact IH].
  split; [reflexivity | lia].
Qed.

Lemma counters_grow_bump (i : Z) (l : list Fact.t) :
  counters_grow l (map (bump i) l).
Proof.
  unfold counters_grow. induction l as [|f l IH]; simpl; constructor; [|exact IH].
  unfold bump. destruct (Fact.id f =? i); simpl; split; try reflexivity; lia.
Qed.

Lemma counters_grow_ids (l l' : list Fact.t) :
  counters_grow l l' -> map Fact.id l' = map Fact.id l.
Proof.
  unfold counters_grow. induction 1 as [|f f' l l' [Hid _] _ IH]; simpl;
    [reflexivity|]. rewrite Hid, IH. reflexivity.
Qed.

Lemma counters_grow_nonneg (l l' : list Fact.t) :
  counters_grow l l' ->
  Forall (fun f => 0 <= Fact.view_count f) l ->
  Forall (fun f => 0 <= Fact.view_count f) l'.
Proof.
  unfold counters_grow. induction 1 as [|f f' l l' [_ Hle] _ IH];
    intros Hall; [constructor|].
  inversion Hall; subst. constructor; [lia | auto].
Qed.

Lemma get_facts_view_unchanged (page per_page : option Z)
    (category : option string) (r : Request) (s : Store) :
  snd (get_facts_view page per_page category r s) = s.
Proof. unfold get_facts_view. destruct (bindable _); reflexivity. Qed.

Lemma track_usage_facts (f : View) (r : Request) (s : Store) :
  facts (snd (track_usage f r s)) = facts (snd (f r s)).
Proof.
  unfold track_usage. destruct (f r s) as [out s1]. cbn [snd].
  destruct out as [response|]; rewrite commit_usage; reflexivity.
Qed.

Lemma random_fact_facts (category : option string) (r : Request) (s : Store) :
  facts_step (facts s) (facts (snd (random_fact category r s))).
Proof.
  unfold random_fact.
  destruct (random_first (rnd r) (active_facts s category)) as [fact|] eqn:E.
  - right. exists fact. split; [|reflexivity].
    apply random_first_In in E. apply active_facts_In in E. tauto.
  - left. reflexivity.
Qed.

Lemma favorites_post_facts (u : Z) (data : option (Json Z)) (r : Request)
    (s : Store) :
  facts (snd (favorites_post u data r s)) = facts s.
Proof.
  unfold favorites_post, favorites_post_among.
  destruct (favorites_post_check u data s) as [answer|[u' f']]; [reflexivity|].
  unfold favorites_post_commit. rewrite commit_add_favorite.
  destruct (favorite_exists s u' f'); reflexivity.
Qed.

Lemma favorites_delete_facts (u : Z) (data : option (Json Z)) (r : Request)
    (s : Store) :
  facts (snd (favorites_delete u data r s)) = facts s.
Proof.
  unfold favorites_delete.
  destruct (json_falsy data || negb (json_has "fact_id" _)); [reflexivity|].
  destruct (json_get "fact_id" _); [|reflexivity].
  destruct (bindable _); cbn [negb]; [|reflexivity].
  destruct (favorite_first s u z); reflexivity.
Qed.

Lemma manage_favorites_facts (m : Method) (data : option (Json Z))
    (r : Request) (s : Store) :
  facts (snd (manage_favorites m data r s)) = facts s.
Proof.
  unfold manage_favorites. destruct (get_jwt_identity r); [|reflexivity].
  destruct m.
  - reflexivity.
  - apply favorites_post_facts.
  - apply favorites_delete_facts.
Qed.

Section System.

Variable hashpw : string -> string -> option string.
Variable checkpw : string -> string -> option bool.
Variable create_access_token : Z -> Time -> string.

Lemma register_facts (data : option (Json string)) (r : Request) (s : Store) :
  facts (snd (register hashpw data r s)) = facts s.
Proof.
  unfold register.
  destruct (json_falsy data || _); [reflexivity|].
  destruct (json_get "username" _); [|reflexivity].
  destruct (json_get "email" _); [|reflexivity].
  destruct (json_get "password" _); [|reflexivity].
  destruct (user_by_username s s0); [reflexivity|].
  destruct (user_by_email s s1); [reflexivity|].
  destruct (hashpw _ _); [|reflexivity].
  simpl. destruct (username_taken s s0 || email_taken s s1); reflexivity.
Qed.

Lemma login_unchanged (data : option (Json string)) (r : Request) (s : Store) :
  snd (login checkpw create_access_token data r s) = s.
Proof.
  unfold login.
  destruct (json_falsy data || _); [reflexivity|].
  destruct (json_get "username" _); [|reflexivity].
  destruct (json_get "password" _); [|reflexivity].
  destruct (user_by_username s s0); [|reflexivity].
  destruct (check_password checkpw t s1) as [verified|]; [|reflexivity].
  destruct (verified && User.is_active t); reflexivity.
Qed.

Lemma get_profile_unchanged (r : Request) (s : Store) :
  snd (get_profile r s) = s.
Proof.
  unfold get_profile. destruct (get_jwt_identity r); [|reflexivity].
  destruct (user_get s z); reflexivity.
Qed.

(** Every route: the Fact table after the request is the table before it,
    or that table with one more view of one of its rows. *)
Lemma app_facts (r : Request) (s : Store) :
  facts_step (facts s)
    (facts (snd (app hashpw checkpw create_access_token r s))).
Proof.
  open_app r. destruct (rate_limited r); [left; reflexivity|].
  destruct (call r); open_jwt r;
    try (destruct (bearer r); [|left; reflexivity]);
    rewrite track_usage_facts.
  - left. reflexivity.
  - left. reflexivity.
  - left. apply register_facts.
  - left. rewrite login_unchanged. reflexivity.
  - left. rewrite get_facts_view_unchanged. reflexivity.
  - apply random_fact_facts.
  - left. reflexivity.
  - left. apply manage_favorites_facts.
  - left. rewrite get_profile_unchanged. reflexivity.
  - left. reflexivity.
Qed.

Lemma step_counters_grow (s s' : Store) :
  fact_ids_unique s ->
  step hashpw checkpw create_access_token s s' ->
  counters_grow (facts s) (facts s').
Proof.
  intros Hkey Hstep. destruct Hstep as [r s].
  destruct (app_facts r s) as [-> | (fact & Hin & ->)].
  - apply counters_grow_refl.
  - rewrite (@set_view_count_is_bump (facts s) fact Hkey Hin).
    apply counters_grow_bump.
Qed.

Lemma seeded_facts (t : Time) :
  Forall (fun f => Fact.view_count f = 0) (facts (seed_data t empty_store)) /\
  map Fact.id (facts (seed_data t empty_store))
  = [1; 2; 3; 4; 5; 6; 7; 8; 9; 10; 11; 12; 13; 14; 15].
Proof.
  split.
  - vm_compute. repeat constructor.
  - vm_compute. reflexivity.
Qed.

Lemma seeded_tables (t : Time) :
  Forall (fun f => Fact.is_active f = true) (facts (seed_data t empty_store)) /\
  favorites (seed_data t empty_store) = [].
Proof. split; vm_compute; [repeat constructor | reflexivity]. Qed.

Lemma seeded_ids_unique (t : Time) : fact_ids_unique (seed_data t empty_store).
Proof.
  unfold fact_ids_unique. rewrite (proj2 (seeded_facts t)).
  repeat (constructor; [cbn [In]; intuition discriminate|]). constructor.
Qed.

(** The invariant of the running system: [id] is a key of the Fact table
    and no view counter is negative. *)
Lemma reachable_invariant (s : Store) :
  reachable hashpw checkpw create_access_token s ->
  fact_ids_unique s /\ Forall (fun f => 0 <= Fact.view_count f) (facts s).
Proof.
  induction 1 as [t | s s' _ [Hkey Hnonneg] Hstep].
  - split; [apply seeded_ids_unique|].
    eapply Forall_impl; [|exact (proj1 (seeded_facts t))].
    intros f Hf. simpl in Hf. lia.
  - pose proof (step_counters_grow Hkey Hstep) as Hgrow. split.
    + unfold fact_ids_unique. rewrite (counters_grow_ids Hgrow). exact Hkey.
    + exact (counters_grow_nonneg Hgrow Hnonneg).
Qed.

Lemma track_usage_favorites (f : View) (r : Request) (s : Store) :
  favorites (snd (track_usage f r s)) = favorites (snd (f r s)).
Proof.
  unfold track_usage. destruct (f r s) as [out s1]. cbn [snd].
  destruct out as [response|]; rewrite commit_usage; reflexivity.
Qed.

Lemma random_fact_favorites (category : option string) (r : Request)
    (s : Store) :
  favorites (snd (random_fact category r s)) = favorites s.
Proof.
  unfold random_fact.
  destruct (random_first (rnd r) (active_facts s category)); reflexivity.
Qed.

Lemma register_favorites (data : option (Json string)) (r : Request)
    (s : Store) :
  favorites (snd (register hashpw data r s)) = favorites s.
Proof.
  unfold register.
  destruct (json_falsy data || _); [reflexivity|].
  destruct (json_get "username" _); [|reflexivity].
  destruct (json_get "email" _); [|reflexivity].
  destruct (json_get "password" _); [|reflexivity].
  destruct (user_by_username s s0); [reflexivity|].
  destruct (user_by_email s s1); [reflexivity|].
  destruct (hashpw _ _); [|reflexivity].
  simpl. destruct (username_taken s s0 || email_taken s s1); reflexivity.
Qed.

Lemma manage_favorites_favorites (m : Method) (data : option (Json Z))
    (r : Request) (s : Store) :
  favorites_step s (snd (manage_favorites m data r s)).
Proof.
  unfold manage_favorites.
  destruct (get_jwt_identity r) as [u|]; [|left; reflexivity].
  destruct m.
  - left. reflexivity.
  - unfold favorites_post, favorites_post_among.
    destruct (favorites_post_check u data s) as [answer|[u' f']] eqn:E;
      [left; reflexivity|].
    unfold favorites_post_commit. rewrite commit_add_favorite.
    destruct (favorite_exists s u' f'); [left; reflexivity|].
    right. left. unfold favorites_post_check in E.
    destruct (json_falsy data || _); [discriminate E|].
    destruct (json_get "fact_id" _) as [fact_id|]; [|discriminate E].
    destruct (bindable _); cbn [negb]; [|discriminate E].
    destruct (fact_get s fact_id) as [fact|] eqn:Hget; [|discriminate E].
    destruct (negb (Fact.is_active fact)); [discriminate E|].
    destruct (favorite_first s u fact_id); [discriminate E|].
    injection E as <- <-. apply fact_get_Some in Hget.
    eexists. exists fact. split; [reflexivity|]. exact Hget.
  - unfold favorites_delete.
    destruct (json_falsy data || _); [left; reflexivity|].
    destruct (json_get "fact_id" _) as [fact_id|]; [|left; reflexivity].
    destruct (bindable _); cbn [negb]; [|left; reflexivity].
    destruct (favorite_first s u fact_id) as [fav|]; [|left; reflexivity].
    right. right. eexists. reflexivity.
Qed.

Lemma app_favorites (r : Request) (s : Store) :
  favorites_step s (snd (app hashpw checkpw create_access_token r s)).
Proof.
  open_app r. destruct (rate_limited r); [left; reflexivity|].
  unfold favorites_step.
  destruct (call r); open_jwt r;
    try (destruct (bearer r); [|left; reflexivity]);
    rewrite track_usage_favorites.
  - left. reflexivity.
  - left. reflexivity.
  - left. apply register_favorites.
  - left. rewrite login_unchanged. reflexivity.
  - left. rewrite get_facts_view_unchanged. reflexivity.
  - left. apply random_fact_favorites.
  - left. reflexivity.
  - apply manage_favorites_favorites.
  - left. rewrite get_profile_unchanged. reflexivity.
  - left. reflexivity.
Qed.

Lemma facts_step_refer (l l' : list Fact.t) :
  facts_step l l' ->
  Forall (fun f => Fact.is_active f = true) l ->
  Forall (fun f => Fact.is_active f = true) l' /\
  forall i, (exists fact, In fact l /\ Fact.id fact = i) ->
            (exists fact, In fact l' /\ Fact.id fact = i).
Proof.
  intros [-> | (picked & _ & ->)] Hact; [tauto|]. split.
  - apply Forall_map. eapply Forall_impl; [|exact Hact].
    intros f Hf. cbv beta. destruct (Fact.id f =? Fact.id picked); exact Hf.
  - intros i (fact & Hin & Hid).
    exists (if Fact.id fact =? Fact.id picked
            then set_view_count (Fact.view_count picked + 1) fact else fact).
    split.
    + apply in_map_iff. exists fact. split; [reflexivity | exact Hin].
    + destruct (Fact.id fact =? Fact.id picked); exact Hid.
Qed.

(** In every store the system can reach, every fact is active and every
    Favorite row points at a fact. *)
Lemma reachable_favorites_refer (s : Store) :
  reachable hashpw checkpw create_access_token s -> favorites_refer s.
Proof.
  induction 1 as [t | s s' _ [Hact Href] Hstep].
  - destruct (seeded_tables t) as [Hact Hnone].
    split; [exact Hact|]. rewrite Hnone. intros fav [].
  - destruct Hstep as [r s].
    destruct (facts_step_refer (app_facts r s) Hact) as [Hact' Hkeep].
    split; [exact Hact'|]. intros fav Hin. apply Hkeep.
    destruct (app_favorites r s) as [E | [(new & fact & E & Hfact & Hid) | (keep & E)]];
      rewrite E in Hin.
    + exact (Href fav Hin).
    + apply in_app_or in Hin. destruct Hin as [Hin | [<- | []]].
      * exact (Href fav Hin).
      * exists fact. split; assumption.
    + apply filter_In in Hin. exact (Href fav (proj1 Hin)).
Qed.

(** In a store the system can reach, the two error cases of add cannot
    both apply: a (u, f) Favorite row is enough for AlreadyExists. *)
Lemma reachable_add_existing (u f : Z) (d : Json Z) (r : Request) (s : Store) :
  reachable hashpw checkpw create_access_token s ->
  get_jwt_identity r = Some u ->
  json_get "fact_id" d = Some f ->
  bindable f = true ->
  has_favorite s u f ->
  manage_favorites POST (Some d) r s = (error "Already in favorites" 400, s).
Proof.
  intros Hs Hid Hd Hb Hrow.
  destruct (reachable_favorites_refer Hs) as [Hact Href].
  unfold manage_favorites. rewrite Hid.
  unfold favorites_post, favorites_post_among.
  rewrite (@favorites_post_check_cases u f d s Hd), Hb.
  pose proof Hrow as (fav & Hin & _ & Hf).
  destruct (Href fav Hin) as (fact & Hfact & Hfid). rewrite Hf in Hfid.
  destruct (fact_get s f) as [found|] eqn:Hget.
  - apply fact_get_Some in Hget. destruct Hget as [Hfound _].
    rewrite Forall_forall in Hact. rewrite (Hact found Hfound).
    apply favorite_exists_true in Hrow. rewrite Hrow. reflexivity.
  - apply fact_get_None in Hget. exfalso. exact (Hget fact Hfact Hfid).
Qed.

(** Requests served one at a time: the facts the system creates start
    with a view counter of 0; in every store the system can reach, [id] is
    a key of the Fact table and every view counter is a non-negative
    integer; and a request, whatever the route, leaves the same fact rows
    with view counters that are at least what they were. *)
Theorem view_count_monotone :
  (forall t, Forall (fun f => Fact.view_count f = 0)
                    (facts (seed_data t empty_store))) /\
  (forall s, reachable hashpw checkpw create_access_token s ->
             fact_ids_unique s /\
             Forall (fun f => 0 <= Fact.view_count f) (facts s)) /\
  (forall s s', fact_ids_unique s ->
                step hashpw checkpw create_access_token s s' ->
                counters_grow (facts s) (facts s')).
Proof.
  split; [|split].
  - intros t. exact (proj1 (seeded_facts t)).
  - exact reachable_invariant.
  - exact step_counters_grow.
Qed.

End System.

(** C9 at a failing input: three clients pick the octopus fact (view
    counter 5) at the same time.  This request reads the row, the two
    others commit their increments (5 -> 6 -> 7), then this request writes
    the value it computed from what it read: the stored counter goes from 7
    down to 6, and the response shows 6.  The claim wants a counter that
    never decreases. *)
Theorem interleaved_pick_lowers_counter :
  map Fact.view_count (facts Sample.store) = [5; 3; 0] /\
  map Fact.view_count (facts (Sample.two_picks Sample.store)) = [7; 3; 0] /\
  map Fact.view_count
      (facts (snd (random_fact_among Sample.two_picks (Some "animals")
                     Sample.pick_animals Sample.store))) = [6; 3; 0] /\
  fst (random_fact_among Sample.two_picks (Some "animals")
         Sample.pick_animals Sample.store)
  = Return (Jsonify (FactBody
      (FactDict.mk 1 "Octopuses have three hearts and blue blood." "animals"
                   6 0))) /\
  6 < 7.
Proof. repeat split. Qed.

(** A request that runs alone is the view function as it is written. *)
Lemma random_fact_alone (category : option string) (r : Request) (s : Store) :
  random_fact_among (fun s => s) category r s = random_fact category r s.
Proof. reflexivity. Qed.

Lemma view_count_monotone_witness :
  counters_grow
    (facts (seed_data 0 empty_store))
    (facts (snd (app Sample.toy_hashpw Sample.toy_checkpw Sample.toy_token
                   (Sample.anonymous (RandomFact None))
                   (seed_data 0 empty_store)))).
Proof.
  destruct (view_count_monotone Sample.toy_hashpw Sample.toy_checkpw
              Sample.toy_token) as (_ & _ & H).
  apply H.
  - vm_compute. repeat (constructor; [cbn [In]; intuition discriminate|]).
    constructor.
  - apply step_request.
Defined.

(* ===================================================================== *)
(** * The unit of work keeps the schema                                   *)
(* ===================================================================== *)

Lemma NoDup_snoc (A : Type) (l : list A) (x : A) :
  NoDup l -> ~ In x l -> NoDup (l ++ [x]).
Proof.
  induction l as [|a l IH]; simpl; intros Hnd Hx.
  - constructor; [tauto | constructor].
  - inversion Hnd as [|? ? Ha Hl]; subst. constructor.
    + rewrite in_app_iff. simpl. intros [H|[H|[]]]; [tauto|].
      apply Hx. left. symmetry. exact H.
    + apply IH; [exact Hl | tauto].
Qed.

Lemma NoDup_map_snoc (A B : Type) (key : A -> B) (l : list A) (x : A) :
  NoDup (map key l) -> ~ In (key x) (map key l) -> NoDup (map key (l ++ [x])).
Proof. intros Hnd Hx. rewrite map_app. apply NoDup_snoc; assumption. Qed.

Lemma NoDup_map_filter (A B : Type) (key : A -> B) (keep : A -> bool)
    (l : list A) :
  NoDup (map key l) -> NoDup (map key (filter keep l)).
Proof.
  induction l as [|a l IH]; simpl; intros Hnd; [constructor|].
  inversion Hnd as [|? ? Ha Hl]; subst.
  destruct (keep a); simpl; [|exact (IH Hl)].
  constructor; [|exact (IH Hl)].
  intros Hin. apply Ha. apply in_map_iff in Hin.
  destruct Hin as (x & Hx & Hfx). apply filter_In in Hfx.
  apply in_map_iff. exists x. tauto.
Qed.

Lemma next_id_fresh (ids : list Z) : ~ In (next_id ids) ids.
Proof. intros H. apply next_id_above in H. lia. Qed.

Lemma existsb_false_not_in (A : Type) (l : list A) (key : A -> string)
    (k : string) :
  existsb (fun x => String.eqb (key x) k) l = false -> ~ In k (map key l).
Proof.
  intros H Hin. apply in_map_iff in Hin. destruct Hin as (x & Hx & Hxl).
  assert (Ht : existsb (fun x => String.eqb (key x) k) l = true).
  { apply existsb_exists. exists x. split; [exact Hxl|].
    apply String.eqb_eq. exact Hx. }
  congruence.
Qed.

Lemma favorite_exists_false_not_in (s : Store) (u f : Z) :
  favorite_exists s u f = false -> ~ In (u, f) (map favorite_pair (favorites s)).
Proof.
  intros H Hin. apply in_map_iff in Hin. destruct Hin as (fav & Hp & Hfav).
  injection Hp as Hu Hf.
  assert (Ht : favorite_exists s u f = true).
  { apply favorite_exists_true. exists fav. tauto. }
  congruence.
Qed.

Lemma set_view_count_ids (i v : Z) (l : list Fact.t) :
  map Fact.id (map (fun f => if Fact.id f =? i then set_view_count v f else f) l)
  = map Fact.id l.
Proof.
  rewrite map_map. apply map_ext. intros f.
  destruct (Fact.id f =? i); reflexivity.
Qed.

Lemma flush_keeps_schema (t : Time) (s s' : Store) (p : Pending) :
  schema s -> flush t s p = Some s' -> schema s'.
Proof.
  intros [Hui Hun Hue Hf Hvi Hvp Ha] Hflush. destruct p; cbn [flush] in Hflush.
  - destruct (username_taken s username || email_taken s email) eqn:E;
      [discriminate|]. apply orb_false_iff in E. destruct E as [En Ee].
    injection Hflush as <-. constructor; cbn [users facts favorites api_usage];
      try assumption.
    + apply NoDup_map_snoc; [exact Hui | apply next_id_fresh].
    + apply NoDup_map_snoc; [exact Hun|].
      eapply existsb_false_not_in; exact En.
    + apply NoDup_map_snoc; [exact Hue|].
      eapply existsb_false_not_in; exact Ee.
  - injection Hflush as <-. constructor; cbn [users facts favorites api_usage];
      try assumption.
    apply NoDup_map_snoc; [exact Hf | apply next_id_fresh].
  - destruct (favorite_exists s user_id fact_id) eqn:E; [discriminate|].
    injection Hflush as <-. constructor; cbn [users facts favorites api_usage];
      try assumption.
    + apply NoDup_map_snoc; [exact Hvi | apply next_id_fresh].
    + apply NoDup_map_snoc; [exact Hvp|].
      apply favorite_exists_false_not_in; exact E.
  - injection Hflush as <-. constructor; cbn [users facts favorites api_usage];
      try assumption.
    apply NoDup_map_snoc; [exact Ha | apply next_id_fresh].
  - injection Hflush as <-. constructor; cbn [users facts favorites api_usage];
      try assumption; apply NoDup_map_filter; assumption.
  - injection Hflush as <-. constructor; cbn [users facts favorites api_usage];
      try assumption.
    rewrite set_view_count_ids. exact Hf.
Qed.

(** A commit that succeeds keeps every key of models.py: primary keys,
    unique usernames and emails, and at most one Favorite row per
    (user, fact) pair, whatever the pending statements are. *)
Theorem commit_keeps_schema (t : Time) (ps : list Pending) (s s' : Store) :
  schema s -> commit t s ps = Some s' -> schema s'.
Proof.
  revert s. induction ps as [|p ps IH]; intros s Hs Hc; cbn [commit] in Hc.
  - injection Hc as <-. exact Hs.
  - destruct (flush t s p) as [s1|] eqn:E; [|discriminate].
    apply (IH s1); [eapply flush_keeps_schema; eassumption | exact Hc].
Qed.

Lemma sample_schema : schema Sample.store.
Proof.
  constructor; cbn;
    repeat (constructor; [cbn [In]; intuition discriminate|]); constructor.
Qed.

Lemma sample_added_schema : schema (Sample.concurrent_add Sample.store).
Proof.
  apply (@flush_keeps_schema 100 Sample.store _ (AddFavorite 1 1) sample_schema).
  reflexivity.
Qed.

Lemma commit_keeps_schema_witness :
  schema (Sample.concurrent_add Sample.store).
Proof.
  apply (@commit_keeps_schema 100 [AddFavorite 1 1] Sample.store
           (Sample.concurrent_add Sample.store) sample_schema).
  reflexivity.
Defined.

Lemma evolves_keeps_schema (s s' : Store) :
  evolves s s' -> schema s -> schema s'.
Proof.
  induction 1 as [s | t s s1 s2 ps _ IH Hc]; intros Hs; [exact Hs|].
  eapply commit_keeps_schema; [exact (IH Hs) | exact Hc].
Qed.

Lemma evolves_one (t : Time) (s s' : Store) (ps : list Pending) :
  commit t s ps = Some s' -> evolves s s'.
Proof. intros H. eapply evolves_commit; [apply evolves_refl | exact H]. Qed.

(** X1: when requests race on [POST /favorites], whatever the others commit
    between this request's check and its insert, this request leaves the
    keys intact: the store never holds two Favorite rows for one
    (user, fact) pair. *)
Theorem racing_add_keeps_schema (others : Store -> Store) (user_id : Z)
    (data : option (Json Z)) (r : Request) (s : Store) :
  schema (others s) ->
  schema (snd (favorites_post_among others user_id data r s)).
Proof.
  intros Hs. unfold favorites_post_among.
  destruct (favorites_post_check user_id data s) as [answer|[u f]];
    [exact Hs|].
  unfold favorites_post_commit.
  destruct (commit (now r) (others s) [AddFavorite u f]) as [s'|] eqn:E;
    [|exact Hs].
  eapply commit_keeps_schema; [exact Hs | exact E].
Qed.

Lemma racing_add_keeps_schema_witness :
  schema (snd (favorites_post_among Sample.concurrent_add 1
                 (Sample.fact_id_body 1) Sample.add_request Sample.store)).
Proof.
  apply (@racing_add_keeps_schema Sample.concurrent_add 1
           (Sample.fact_id_body 1) Sample.add_request Sample.store).
  exact sample_added_schema.
Defined.

(* ===================================================================== *)
(** * Every route changes the store by commits only                       *)
(* ===================================================================== *)

Lemma track_usage_evolves (f : View) (r : Request) (s : Store) :
  evolves s (snd (f r s)) -> evolves s (snd (track_usage f r s)).
Proof.
  unfold track_usage. destruct (f r s) as [out s1]. cbn [snd]. intros H.
  destruct out as [response|].
  - destruct (commit (now r) s1 _) as [s2|] eqn:E; cbn [snd]; [|exact H].
    eapply evolves_commit; [exact H | exact E].
  - destruct (commit (now r) s1 _) as [s2|] eqn:E; cbn [snd]; [|exact H].
    eapply evolves_commit; [exact H | exact E].
Qed.

Lemma random_fact_evolves (category : option string) (r : Request) (s : Store) :
  evolves s (snd (random_fact category r s)).
Proof.
  unfold random_fact.
  destruct (random_first (rnd r) (active_facts s category)) as [fact|];
    [|apply evolves_refl].
  destruct (commit (now r) s _) as [s'|] eqn:E; cbn [snd];
    [|apply evolves_refl].
  eapply evolves_one. exact E.
Qed.

Lemma manage_favorites_evolves (m : Method) (data : option (Json Z))
    (r : Request) (s : Store) :
  evolves s (snd (manage_favorites m data r s)).
Proof.
  unfold manage_favorites.
  destruct (get_jwt_identity r) as [u|]; [|apply evolves_refl].
  destruct m.
  - apply evolves_refl.
  - unfold favorites_post, favorites_post_among.
    destruct (favorites_post_check u data s) as [answer|[u' f']];
      [apply evolves_refl|].
    unfold favorites_post_commit.
    destruct (commit (now r) s _) as [s'|] eqn:E; cbn [snd];
      [|apply evolves_refl].
    eapply evolves_one. exact E.
  - unfold favorites_delete.
    destruct (json_falsy data || _); [apply evolves_refl|].
    destruct (json_get "fact_id" _) as [fact_id|]; [|apply evolves_refl].
    destruct (bindable _); cbn [negb]; [|apply evolves_refl].
    destruct (favorite_first s u fact_id) as [fav|]; [|apply evolves_refl].
    destruct (commit (now r) s _) as [s'|] eqn:E; cbn [snd];
      [|apply evolves_refl].
    eapply evolves_one. exact E.
Qed.

Lemma seed_data_evolves (t : Time) (s : Store) : evolves s (seed_data t s).
Proof.
  unfold seed_data. destruct (count (facts s) =? 0); [|apply evolves_refl].
  destruct (commit t s _) as [s'|] eqn:E; [|apply evolves_refl].
  eapply evolves_one. exact E.
Qed.

Lemma empty_schema : schema empty_store.
Proof. constructor; constructor. Qed.

Section Routes.

Variable hashpw : string -> string -> option string.
Variable checkpw : string -> string -> option bool.
Variable create_access_token : Z -> Time -> string.

Lemma register_evolves (data : option (Json string)) (r : Request) (s : Store) :
  evolves s (snd (register hashpw data r s)).
Proof.
  unfold register.
  destruct (json_falsy data || _); [apply evolves_refl|].
  destruct (json_get "username" _) as [username|]; [|apply evolves_refl].
  destruct (json_get "email" _) as [email|]; [|apply evolves_refl].
  destruct (json_get "password" _) as [password|]; [|apply evolves_refl].
  destruct (user_by_username s username); [apply evolves_refl|].
  destruct (user_by_email s email); [apply evolves_refl|].
  destruct (hashpw _ _); [|apply evolves_refl].
  destruct (commit (now r) s _) as [s'|] eqn:E; cbn [snd];
    [|apply evolves_refl].
  eapply evolves_one. exact E.
Qed.

Lemma app_evolves (r : Request) (s : Store) :
  evolves s (snd (app hashpw checkpw create_access_token r s)).
Proof.
  open_app r. destruct (rate_limited r); [apply evolves_refl|].
  destruct (call r); open_jwt r;
    try (destruct (bearer r); [|apply evolves_refl]);
    apply track_usage_evolves.
  - apply evolves_refl.
  - apply evolves_refl.
  - apply register_evolves.
  - rewrite login_unchanged. apply evolves_refl.
  - rewrite get_facts_view_unchanged. apply evolves_refl.
  - apply random_fact_evolves.
  - apply evolves_refl.
  - apply manage_favorites_evolves.
  - rewrite get_profile_unchanged. apply evolves_refl.
  - apply evolves_refl.
Qed.

(** X2: in every store the running system can reach (the seeded database,
    then any requests on any routes), primary keys are unique, no two
    users share a username or an email, and no two Favorite rows share a
    (user, fact) pair. *)
Theorem reachable_schema (s : Store) :
  reachable hashpw checkpw create_access_token s -> schema s.
Proof.
  induction 1 as [t | s s' _ IH Hstep].
  - eapply evolves_keeps_schema; [apply seed_data_evolves | apply empty_schema].
  - destruct Hstep as [r s].
    eapply evolves_keeps_schema; [apply app_evolves | exact IH].
Qed.

(** X5: a request the limiter rejects is answered 429, and a request
    without an Authorization header on a protected route (/favorites,
    /profile, /admin/stats) is answered 401 by the JWT extension; in both
    cases the view does not run and the store is untouched: not even an
    ApiUsage row is written. *)
Theorem rejected_requests_leave_no_trace (r : Request) (s : Store) :
  (rate_limited r = true ->
   status_of (fst (app hashpw checkpw create_access_token r s)) = 429 /\
   snd (app hashpw checkpw create_access_token r s) = s) /\
  (rate_limited r = false -> protected (call r) = true -> bearer r = None ->
   status_of (fst (app hashpw checkpw create_access_token r s)) = 401 /\
   snd (app hashpw checkpw create_access_token r s) = s).
Proof.
  open_app r. split.
  - intros ->. split; reflexivity.
  - intros -> Hprot Hnone.
    destruct (call r); try discriminate Hprot;
      open_jwt r; rewrite Hnone; split; reflexivity.
Qed.

End Routes.

Lemma reachable_schema_witness :
  schema (snd (app Sample.toy_hashpw Sample.toy_checkpw Sample.toy_token
                 (Sample.anonymous (RandomFact None))
                 (seed_data 0 empty_store))).
Proof.
  apply (@reachable_schema Sample.toy_hashpw Sample.toy_checkpw Sample.toy_token).
  eapply reachable_step; [apply reachable_seeded | apply step_request].
Defined.

Lemma rejected_requests_leave_no_trace_witness :
  status_of (fst (app Sample.toy_hashpw Sample.toy_checkpw Sample.toy_token
                    (Sample.anonymous
                       (ManageFavorites POST (Sample.fact_id_body 1)))
                    Sample.store)) = 401 /\
  snd (app Sample.toy_hashpw Sample.toy_checkpw Sample.toy_token
         (Sample.anonymous (ManageFavorites POST (Sample.fact_id_body 1)))
         Sample.store) = Sample.store.
Proof.
  apply (proj2 (@rejected_requests_leave_no_trace
                  Sample.toy_hashpw Sample.toy_checkpw Sample.toy_token
                  (Sample.anonymous (ManageFavorites POST (Sample.fact_id_body 1)))
                  Sample.store)); reflexivity.
Defined.

(* ===================================================================== *)
(** * Usage Recorder: the row it writes                                   *)
(* ===================================================================== *)

(** X3: [track_usage] around any view appends exactly one ApiUsage row to
    the store the view left: the row carries the view function's name, the
    method, the caller's address, the identity [get_jwt_identity] gives
    (none when it raises), the elapsed time in milliseconds and the time of
    the request; the other tables stay as the view left them, and a
    response the view returned reaches the caller as it is. *)
Theorem track_usage_writes_one_row (f : View) (r : Request) (s : Store) :
  exists code,
    snd (track_usage f r s)
    = mkStore (users (snd (f r s))) (facts (snd (f r s)))
              (favorites (snd (f r s)))
              (api_usage (snd (f r s)) ++
                 [usage_row (next_id (map ApiUsage.id (api_usage (snd (f r s)))))
                            r code]) /\
    forall response, fst (f r s) = Return response ->
                     fst (track_usage f r s) = Return response.
Proof.
  unfold track_usage. destruct (f r s) as [out s1]. cbn [fst snd].
  destruct out as [response|]; rewrite commit_usage; cbn [fst snd];
    eexists; (split; [reflexivity|]).
  - intros response' [= <-]. reflexivity.
  - intros response' H. discriminate H.
Qed.

(** X4: the status code [track_usage] records is 500 exactly when the view
    raised, and 200 in every other case, whatever status the view
    returned: no ApiUsage row ever carries a 201 or a 4xx code. *)
Theorem track_usage_records_200_or_500 (f : View) (r : Request) (s : Store) :
  (fst (f r s) = Raise ->
   last_response_code (snd (track_usage f r s)) = Some 500) /\
  (fst (f r s) <> Raise ->
   last_response_code (snd (track_usage f r s)) = Some 200).
Proof.
  unfold track_usage. destruct (f r s) as [out s1]. cbn [fst snd].
  destruct out as [response|]; rewrite commit_usage; cbn [fst snd]; split;
    intros H; try discriminate H; try (exfalso; apply H; reflexivity);
    try apply last_response_code_app.
  destruct response; apply last_response_code_app.
Qed.

Lemma track_usage_records_200_or_500_witness :
  last_response_code
    (snd (track_usage (manage_favorites POST (Sample.fact_id_body 1))
            Sample.add_request Sample.store)) = Some 200 /\
  last_response_code
    (snd (track_usage (manage_favorites POST (Sample.fact_id_body 1))
            (Sample.anonymous (ManageFavorites POST (Sample.fact_id_body 1)))
            Sample.store)) = Some 500.
Proof.
  split.
  - apply (proj2 (track_usage_records_200_or_500
                    (manage_favorites POST (Sample.fact_id_body 1))
                    Sample.add_request Sample.store)).
    discriminate.
  - apply (proj1 (track_usage_records_200_or_500
                    (manage_favorites POST (Sample.fact_id_body 1))
                    (Sample.anonymous (ManageFavorites POST (Sample.fact_id_body 1)))
                    Sample.store)).
    reflexivity.
Defined.

(* ===================================================================== *)
(** * Accounts: register, and login after it                              *)
(* ===================================================================== *)

Lemma user_by_email_None (s : Store) (mail : string) :
  user_by_email s mail = None <->
  forall u, In u (users s) -> User.email u <> mail.
Proof.
  unfold user_by_email. rewrite find_None_iff.
  split; intros H u Hin; specialize (H u Hin); apply String.eqb_neq; exact H.
Qed.

Lemma username_taken_lookup (s : Store) (name : string) :
  username_taken s name
  = match user_by_username s name with Some _ => true | None => false end.
Proof. apply find_existsb. Qed.

Lemma email_taken_lookup (s : Store) (mail : string) :
  email_taken s mail
  = match user_by_email s mail with Some _ => true | None => false end.
Proof. apply find_existsb. Qed.

Lemma json_missing_key (V : Type) (k : string) (d : Json V) :
  json_get k d = None -> json_has k d = false.
Proof. intros H. unfold json_has. rewrite H. reflexivity. Qed.

Section Accounts.

Variable hashpw : string -> string -> option string.
Variable checkpw : string -> string -> option bool.
Variable create_access_token : Z -> Time -> string.

(** [register] on a body that carries the three fields. *)
Lemma register_cases (d : Json string) (username email password : string)
    (r : Request) (s : Store) :
  json_get "username" d = Some username ->
  json_get "email" d = Some email ->
  json_get "password" d = Some password ->
  register hashpw (Some d) r s =
  match user_by_username s username with
  | Some _ => (error "Username already exists" 400, s)
  | None =>
      match user_by_email s email with
      | Some _ => (error "Email already exists" 400, s)
      | None =>
          match hashpw password (salt r) with
          | None => (Raise, s)
          | Some hash =>
              let user := new_user (now r) s username email hash in
              (Return (WithStatus (RegisteredBody "User created successfully"
                                                  (user_to_dict user)) 201),
               mkStore (users s ++ [user]) (facts s) (favorites s)
                       (api_usage s))
          end
      end
  end.
Proof.
  intros Hu He Hp. unfold register.
  destruct (@json_get_not_falsy _ _ _ _ Hu) as [-> Hhas_u].
  destruct (@json_get_not_falsy _ _ _ _ He) as [_ Hhas_e].
  destruct (@json_get_not_falsy _ _ _ _ Hp) as [_ Hhas_p].
  cbn [forallb]. rewrite Hhas_u, Hhas_e, Hhas_p. cbn [andb orb negb].
  rewrite Hu, He, Hp.
  destruct (user_by_username s username) eqn:En; [reflexivity|].
  destruct (user_by_email s email) eqn:Ee; [reflexivity|].
  destruct (hashpw password (salt r)) as [hash|]; [|reflexivity].
  cbn [commit flush].
  rewrite username_taken_lookup, email_taken_lookup, En, Ee. reflexivity.
Qed.

(** X6: a body that is the JSON null, the empty object, or an object that
    lacks one of the fields a view reads is answered 400 with the view's
    own message and changes nothing: register (username, email, password),
    login (username, password), and POST and DELETE /favorites (fact_id). *)
Theorem missing_fields_rejected (r : Request) (s : Store) :
  (forall data,
     (forall d, data = Some d ->
        json_get "username" d = None \/ json_get "email" d = None \/
        json_get "password" d = None) ->
     register hashpw data r s = (error "Missing required fields" 400, s)) /\
  (forall data,
     (forall d, data = Some d ->
        json_get "username" d = None \/ json_get "password" d = None) ->
     login checkpw create_access_token data r s
     = (error "Missing username or password" 400, s)) /\
  (forall u data,
     (forall d, data = Some d -> json_get "fact_id" d = None) ->
     favorites_post u data r s = (error "Missing fact_id" 400, s) /\
     favorites_delete u data r s = (error "Missing fact_id" 400, s)).
Proof.
  split; [|split].
  - intros data H. unfold register. destruct data as [d|]; [|reflexivity].
    destruct (H d eq_refl) as [E|[E|E]]; apply json_missing_key in E;
      cbn [forallb]; rewrite E; cbn [andb negb]; rewrite ?andb_false_r;
      cbn [negb]; rewrite orb_true_r; reflexivity.
  - intros data H. unfold login. destruct data as [d|]; [|reflexivity].
    destruct (H d eq_refl) as [E|E]; apply json_missing_key in E;
      cbn [forallb]; rewrite E; cbn [andb negb]; rewrite ?andb_false_r;
      cbn [negb]; rewrite orb_true_r; reflexivity.
  - intros u data H.
    unfold favorites_post, favorites_post_among, favorites_post_check,
      favorites_delete.
    destruct data as [d|]; [|split; reflexivity].
    pose proof (json_missing_key _ _ (H d eq_refl)) as E. rewrite E.
    cbn [negb]. rewrite orb_true_r. split; reflexivity.
Qed.

(** X7: register answers 400 "Username already exists" when a user has the
    username (whatever the email), and 400 "Email already exists" when the
    username is free but a user has the email; nothing is stored. *)
Theorem register_duplicate (d : Json string) (username email password : string)
    (r : Request) (s : Store) :
  json_get "username" d = Some username ->
  json_get "email" d = Some email ->
  json_get "password" d = Some password ->
  ((exists u, In u (users s) /\ User.username u = username) ->
   register hashpw (Some d) r s = (error "Username already exists" 400, s)) /\
  (no_user s username ->
   (exists u, In u (users s) /\ User.email u = email) ->
   register hashpw (Some d) r s = (error "Email already exists" 400, s)).
Proof.
  intros Hu He Hp. rewrite (register_cases d r s Hu He Hp). split.
  - intros (u & Hin & Hname).
    destruct (user_by_username s username) eqn:E; [reflexivity|].
    apply user_by_username_None in E. exfalso. exact (E u Hin Hname).
  - intros Hfree (u & Hin & Hmail).
    apply user_by_username_None in Hfree. rewrite Hfree.
    destruct (user_by_email s email) eqn:E; [reflexivity|].
    rewrite user_by_email_None in E. exfalso. exact (E u Hin Hmail).
Qed.

(** X8: with a username and an email no user has, and a password bcrypt
    hashes (it returns rather than raises), register answers 201 with the
    new user's dict and appends exactly one User row: a fresh id, the given
    username and email, the hash bcrypt made of the password, active; the
    other tables are untouched.  When bcrypt raises on the password the
    view raises and stores nothing. *)
Theorem register_created (d : Json string) (username email password : string)
    (r : Request) (s : Store) :
  json_get "username" d = Some username ->
  json_get "email" d = Some email ->
  json_get "password" d = Some password ->
  no_user s username ->
  (forall u, In u (users s) -> User.email u <> email) ->
  (forall hash, hashpw password (salt r) = Some hash ->
   exists user,
     register hashpw (Some d) r s
     = (Return (WithStatus (RegisteredBody "User created successfully"
                                           (user_to_dict user)) 201),
        mkStore (users s ++ [user]) (facts s) (favorites s) (api_usage s)) /\
     ~ In (User.id user) (map User.id (users s)) /\
     User.username user = username /\ User.email user = email /\
     User.password_hash user = hash /\
     User.is_active user = true) /\
  (hashpw password (salt r) = None ->
   register hashpw (Some d) r s = (Raise, s)).
Proof.
  intros Hu He Hp Hname Hmail. rewrite (register_cases d r s Hu He Hp).
  apply user_by_username_None in Hname. apply user_by_email_None in Hmail.
  rewrite Hname, Hmail. split.
  - intros hash ->. cbv zeta.
    eexists. split; [reflexivity|]. cbn. repeat split. apply next_id_fresh.
  - intros ->. reflexivity.
Qed.

(** X9: once register has succeeded, registering the same username again
    (with any email and password) is answered 400 "Username already exists"
    and stores nothing. *)
Theorem register_twice (d d' : Json string) (username email password : string)
    (email' password' : string) (r r' : Request) (s s1 : Store) (b : Body) :
  json_get "username" d = Some username ->
  json_get "email" d = Some email ->
  json_get "password" d = Some password ->
  json_get "username" d' = Some username ->
  json_get "email" d' = Some email' ->
  json_get "password" d' = Some password' ->
  register hashpw (Some d) r s = (Return (WithStatus b 201), s1) ->
  register hashpw (Some d') r' s1 = (error "Username already exists" 400, s1).
Proof.
  intros Hu He Hp Hu' He' Hp' Hfirst.
  rewrite (register_cases d r s Hu He Hp) in Hfirst.
  rewrite (register_cases d' r' s1 Hu' He' Hp').
  destruct (user_by_username s username) eqn:En; [discriminate Hfirst|].
  destruct (user_by_email s email) eqn:Ee; [discriminate Hfirst|].
  destruct (hashpw password (salt r)) as [hash|]; [|discriminate Hfirst].
  cbv zeta in Hfirst. injection Hfirst as _ <-.
  unfold user_by_username in *. cbn [users].
  rewrite (find_app_last _ _ _ En); [reflexivity|].
  cbn. apply String.eqb_refl.
Qed.

(** X10: register, then login with the same username and password: when
    bcrypt verifies the password against the hash it made of it, login
    answers 200 with the token created for the new user's id. *)
Theorem register_then_login (d d' : Json string) (username email password : string)
    (r r' : Request) (s s1 : Store) (user : UserDict.t) (msg : string) :
  (forall hash, hashpw password (salt r) = Some hash ->
                checkpw password hash = Some true) ->
  json_get "username" d = Some username ->
  json_get "email" d = Some email ->
  json_get "password" d = Some password ->
  json_get "username" d' = Some username ->
  json_get "password" d' = Some password ->
  register hashpw (Some d) r s
  = (Return (WithStatus (RegisteredBody msg user) 201), s1) ->
  login checkpw create_access_token (Some d') r' s1
  = (Return (Jsonify (LoginBody (create_access_token (UserDict.id user) (now r'))
                                user)), s1).
Proof.
  intros Hbcrypt Hu He Hp Hu' Hp' Hreg.
  rewrite (register_cases d r s Hu He Hp) in Hreg.
  rewrite (login_cases checkpw create_access_token d' r' s1 Hu' Hp').
  destruct (user_by_username s username) eqn:En; [discriminate Hreg|].
  destruct (user_by_email s email) eqn:Ee; [discriminate Hreg|].
  destruct (hashpw password (salt r)) as [hash|] eqn:Eh; [|discriminate Hreg].
  cbv zeta in Hreg. injection Hreg as _ <- <-.
  unfold user_by_username in *. cbn [users].
  rewrite (find_app_last _ _ _ En) by (cbn; apply String.eqb_refl).
  cbn. rewrite (Hbcrypt hash eq_refl). reflexivity.
Qed.

End Accounts.

Lemma missing_fields_rejected_witness :
  register Sample.toy_hashpw (Some [("username", "carol")])
           (Sample.anonymous (Register (Some [("username", "carol")])))
           Sample.store
  = (error "Missing required fields" 400, Sample.store).
Proof.
  apply (proj1 (missing_fields_rejected Sample.toy_hashpw Sample.toy_checkpw
                  Sample.toy_token
                  (Sample.anonymous (Register (Some [("username", "carol")])))
                  Sample.store)).
  intros d [= <-]. right. left. reflexivity.
Defined.

Lemma register_duplicate_witness :
  register Sample.toy_hashpw (Some Sample.alice_again)
           (Sample.anonymous (Register (Some Sample.alice_again))) Sample.store
  = (error "Username already exists" 400, Sample.store).
Proof.
  apply (proj1 (@register_duplicate Sample.toy_hashpw Sample.alice_again
                  "alice" "other@x.com" "pw"
                  (Sample.anonymous (Register (Some Sample.alice_again)))
                  Sample.store eq_refl eq_refl eq_refl)).
  exists Sample.alice. split; [left|]; reflexivity.
Defined.

Lemma register_created_witness :
  exists user,
    register Sample.toy_hashpw (Some Sample.carol_body)
             (Sample.anonymous (Register (Some Sample.carol_body))) Sample.store
    = (Return (WithStatus (RegisteredBody "User created successfully"
                                          (user_to_dict user)) 201),
       mkStore (users Sample.store ++ [user]) (facts Sample.store)
               (favorites Sample.store) (api_usage Sample.store)) /\
    ~ In (User.id user) (map User.id (users Sample.store)) /\
    User.username user = "carol" /\ User.email user = "carol@x.com" /\
    User.password_hash user = "hash:s3cret" /\
    User.is_active user = true.
Proof.
  apply (proj1 (@register_created Sample.toy_hashpw Sample.carol_body
                  "carol" "carol@x.com" "s3cret"
                  (Sample.anonymous (Register (Some Sample.carol_body)))
                  Sample.store eq_refl eq_refl eq_refl
                  ltac:(apply user_by_username_None; reflexivity)
                  ltac:(apply user_by_email_None; reflexivity))).
  reflexivity.
Defined.

Lemma register_twice_witness :
  register Sample.toy_hashpw (Some Sample.carol_body)
           (Sample.anonymous (Register (Some Sample.carol_body)))
           (snd (register Sample.toy_hashpw (Some Sample.carol_body)
                   (Sample.anonymous (Register (Some Sample.carol_body)))
                   Sample.store))
  = (error "Username already exists" 400,
     snd (register Sample.toy_hashpw (Some Sample.carol_body)
            (Sample.anonymous (Register (Some Sample.carol_body)))
            Sample.store)).
Proof.
  eapply (@register_twice Sample.toy_hashpw Sample.carol_body Sample.carol_body
            "carol" "carol@x.com" "s3cret" "carol@x.com" "s3cret"
            (Sample.anonymous (Register (Some Sample.carol_body)))
            (Sample.anonymous (Register (Some Sample.carol_body)))
            Sample.store); reflexivity.
Defined.

Lemma register_then_login_witness :
  login Sample.toy_checkpw Sample.toy_token (Some Sample.carol_login)
        (Sample.anonymous (Login (Some Sample.carol_login)))
        (snd (register Sample.toy_hashpw (Some Sample.carol_body)
                (Sample.anonymous (Register (Some Sample.carol_body)))
                Sample.store))
  = (Return (Jsonify (LoginBody "token"
                        (UserDict.mk 3 "carol" "carol@x.com" true 100))),
     snd (register Sample.toy_hashpw (Some Sample.carol_body)
            (Sample.anonymous (Register (Some Sample.carol_body)))
            Sample.store)).
Proof.
  exact (@register_then_login Sample.toy_hashpw Sample.toy_checkpw
           Sample.toy_token Sample.carol_body Sample.carol_login
           "carol" "carol@x.com" "s3cret"
           (Sample.anonymous (Register (Some Sample.carol_body)))
           (Sample.anonymous (Login (Some Sample.carol_login)))
           Sample.store _
           (UserDict.mk 3 "carol" "carol@x.com" true 100)
           "User created successfully"
           ltac:(intros hash [= <-]; reflexivity)
           eq_refl eq_refl eq_refl eq_refl eq_refl eq_refl).
Defined.

(* ===================================================================== *)
(** * GET /facts/categories and the pages of GET /facts                   *)
(* ===================================================================== *)

Lemma distinct_In (l : list string) (x : string) :
  In x (distinct l) <-> In x l.
Proof.
  induction l as [|a l IH]; cbn [distinct In]; [tauto|].
  rewrite filter_In, IH, negb_true_iff, String.eqb_neq.
  destruct (String.eqb_spec a x) as [->|Hne]; [tauto|].
  split; [tauto|]. intros [H|H]; [tauto|]. right. split; [exact H|].
  intros ->. apply Hne. reflexivity.
Qed.

Lemma distinct_NoDup (l : list string) : NoDup (distinct l).
Proof.
  induction l as [|a l IH]; cbn [distinct]; constructor.
  - rewrite filter_In, negb_true_iff, String.eqb_neq. tauto.
  - apply NoDup_filter. exact IH.
Qed.

(** X11: GET /facts/categories lists every category that some active fact
    has, each exactly once, lists no category that only inactive facts
    have, and changes nothing. *)
Theorem get_categories_spec (r : Request) (s : Store) :
  exists categories,
    get_categories r s = (Return (Jsonify (CategoriesBody categories)), s) /\
    NoDup categories /\
    forall c, In c categories <->
              exists f, In f (facts s) /\ Fact.is_active f = true /\
                        Fact.category f = c.
Proof.
  eexists. split; [reflexivity|]. split; [apply distinct_NoDup|].
  intros c. rewrite distinct_In, in_map_iff. split.
  - intros (f & Hc & Hf). apply filter_In in Hf. exists f. tauto.
  - intros (f & Hin & Hact & Hc). exists f. split; [exact Hc|].
    apply filter_In. tauto.
Qed.

Lemma firstn_plus (A : Type) (a b : nat) (l : list A) :
  firstn (a + b) l = (firstn a l ++ firstn b (skipn a l))%list.
Proof.
  revert l. induction a as [|a IH]; intros l; [reflexivity|].
  destruct l as [|x l]; simpl.
  - rewrite firstn_nil. reflexivity.
  - rewrite IH. reflexivity.
Qed.

Lemma pages_concat (A : Type) (size n : nat) (l : list A) :
  flat_map (fun p => firstn size (skipn ((p - 1) * size) l)) (seq 1 n)
  = firstn (n * size) l.
Proof.
  induction n as [|n IH]; [reflexivity|].
  rewrite seq_S, flat_map_app, IH. cbn [flat_map]. rewrite app_nil_r.
  replace (1 + n - 1)%nat with n by lia.
  replace (S n * size)%nat with (n * size + size)%nat by lia.
  rewrite firstn_plus. reflexivity.
Qed.

(** The items of page [p >= 1] in natural numbers. *)
Lemma paginate_items_nat (q : list Fact.t) (p : nat) (per_page : Z) :
  (1 <= p)%nat ->
  Pagination.items (paginate q (Z.of_nat p) per_page)
  = firstn (Z.to_nat (Pagination.per_page (paginate q 1 per_page)))
      (skipn ((p - 1) * Z.to_nat (Pagination.per_page (paginate q 1 per_page))) q).
Proof.
  intros Hp. unfold paginate. cbn [Pagination.items Pagination.per_page].
  destruct (Z.ltb_spec (Z.of_nat p) 1); [lia|].
  set (pp := if per_page <? 1 then 20 else per_page).
  assert (1 <= pp) by (unfold pp; destruct (Z.ltb_spec per_page 1); lia).
  f_equal. f_equal. rewrite Z2Nat.inj_mul by lia. f_equal. lia.
Qed.

Lemma pages_reach_total (q : list Fact.t) (per_page : Z) :
  (List.length q
   <= Z.to_nat (Pagination.pages (paginate q 1 per_page))
      * Z.to_nat (Pagination.per_page (paginate q 1 per_page)))%nat.
Proof.
  unfold paginate, Pagination.pages.
  cbn [Pagination.per_page Pagination.total].
  set (pp := if per_page <? 1 then 20 else per_page).
  assert (Hpp : 1 <= pp) by (unfold pp; destruct (Z.ltb_spec per_page 1); lia).
  set (total := Z.of_nat (List.length q)).
  destruct (Z.eqb_spec total 0) as [H0|H0]; [unfold total in H0; lia|].
  assert (Hdiv : 0 <= (total + pp - 1) / pp) by (apply Z.div_pos; lia).
  pose proof (Z.mul_succ_div_gt (total + pp - 1) pp ltac:(lia)) as Hgt.
  rewrite <- Z2Nat.inj_mul by lia.
  assert (total <= (total + pp - 1) / pp * pp) by nia.
  unfold total in *. lia.
Qed.

(** X12: the pages of GET /facts partition the listing: for any requested
    page size and category, the facts lists of pages 1 to [pages] (the page
    count the response reports), put one after the other, are exactly the
    active facts of that category, each once and in table order; [total] is
    their number. *)
Theorem get_facts_pages_cover (per_page : option Z) (category : option string)
    (r : Request) (s : Store) :
  exists items pages reported total,
    get_facts (Some 1) per_page category r s
    = (Return (Jsonify (FactsBody items 1 pages reported total)), s) /\
    total = count (active_facts s category) /\
    pages_upto (Z.to_nat pages) per_page category r s
    = map fact_to_dict (active_facts s category).
Proof.
  rewrite get_facts_eq. cbv zeta.
  set (pp := Z.min (match per_page with Some n => n | None => 10 end) 50).
  set (q := active_facts s category).
  exists (map fact_to_dict (Pagination.items (paginate q 1 pp))),
         (Pagination.pages (paginate q 1 pp)), pp,
         (Pagination.total (paginate q 1 pp)).
  split; [reflexivity|]. split; [reflexivity|].
  unfold pages_upto.
  rewrite (flat_map_ext _
             (fun p => map fact_to_dict
                         (firstn (Z.to_nat (Pagination.per_page (paginate q 1 pp)))
                            (skipn ((p - 1) * Z.to_nat (Pagination.per_page
                                                          (paginate q 1 pp))) q)))).
  - set (size := Z.to_nat (Pagination.per_page (paginate q 1 pp))).
    set (n := Z.to_nat (Pagination.pages (paginate q 1 pp))).
    assert (Hall : flat_map (fun p => firstn size (skipn ((p - 1) * size) q))
                            (seq 1 n) = q).
    { rewrite pages_concat. apply firstn_all2. apply pages_reach_total. }
    transitivity
      (map fact_to_dict
           (flat_map (fun p => firstn size (skipn ((p - 1) * size) q)) (seq 1 n)));
      [|rewrite Hall; reflexivity].
    generalize (seq 1 n).
    intros l. induction l as [|p l IH]; [reflexivity|].
    cbn [flat_map]. rewrite map_app, IH. reflexivity.
  - intros p. rewrite get_facts_eq. cbv zeta. cbn [fst returned_facts].
    fold pp q.
    destruct p as [|p].
    + (* page 0 is served as page 1; it is not among 1 .. pages *)
      unfold paginate. cbn [Pagination.items Pagination.per_page].
      cbn [Z.of_nat Z.ltb Z.compare]. reflexivity.
    + rewrite paginate_items_nat by lia. reflexivity.
Qed.

Lemma page_items_In (A : Type) (a b : nat) (l : list A) (x : A) :
  In x (firstn a (skipn b l)) -> In x l.
Proof.
  intros H. rewrite <- (firstn_skipn b l). apply in_or_app. right.
  rewrite <- (firstn_skipn a (skipn b l)). apply in_or_app. left. exact H.
Qed.

(** X13: every fact GET /facts lists, on any page, is an active fact of the
    requested category (of any category when none or an empty one is
    given); a page number below 1 is served as page 1. *)
Theorem get_facts_lists_active (page per_page : option Z)
    (category : option string) (r : Request) (s : Store) :
  (forall d,
     In d (returned_facts (fst (get_facts page per_page category r s))) ->
     exists f, In f (facts s) /\ Fact.is_active f = true /\
               (forall c, truthy category = Some c -> Fact.category f = c) /\
               d = fact_to_dict f) /\
  (forall p, p < 1 ->
     returned_facts (fst (get_facts (Some p) per_page category r s))
     = returned_facts (fst (get_facts (Some 1) per_page category r s))).
Proof.
  split.
  - intros d. rewrite get_facts_eq. cbv zeta. cbn [fst returned_facts].
    unfold paginate. cbn [Pagination.items]. rewrite in_map_iff.
    intros (f & Hd & Hin). apply page_items_In in Hin.
    apply active_facts_In in Hin. exists f.
    destruct Hin as (Hin & Hact & Hcat). auto.
  - intros p Hp. rewrite !get_facts_eq. cbv zeta. cbn [fst returned_facts].
    unfold paginate. cbn [Pagination.items].
    destruct (Z.ltb_spec p 1); [reflexivity | lia].
Qed.

Lemma get_facts_lists_active_witness :
  returned_facts (fst (get_facts (Some (-3)) None (Some "animals")
                         (Sample.anonymous (GetFacts (Some (-3)) None
                                                     (Some "animals")))
                         Sample.store))
  = returned_facts (fst (get_facts (Some 1) None (Some "animals")
                           (Sample.anonymous (GetFacts (Some (-3)) None
                                                       (Some "animals")))
                           Sample.store)).
Proof.
  apply (proj2 (get_facts_lists_active (Some (-3)) None (Some "animals")
                  (Sample.anonymous (GetFacts (Some (-3)) None (Some "animals")))
                  Sample.store)).
  lia.
Defined.

(* ===================================================================== *)
(** * Random facts: views add up                                          *)
(* ===================================================================== *)









(* ===================================================================== *)
(** * The landing page                                                    *)
(* ===================================================================== *)

(** X15: the landing page shows a random active fact without counting a
    view: the store is unchanged, the fact shown is an active fact of the
    table, and the page shows no fact exactly when no fact is active. *)
Theorem home_spec (r : Request) (s : Store) :
  exists shown,
    home r s = (Return (Jsonify (HomeBody shown)), s) /\
    (shown = None <-> forall f, In f (facts s) -> Fact.is_active f = false) /\
    (forall d, shown = Some d ->
       exists f, In f (facts s) /\ Fact.is_active f = true /\ d = fact_to_dict f).
Proof.
  unfold home. eexists. split; [reflexivity|].
  destruct (random_first (rnd r) (filter Fact.is_active (facts s)))
    as [fact|] eqn:E; cbn [option_map].
  - pose proof (@random_first_In _ _ _ _ E) as Hin. apply filter_In in Hin.
    split.
    + split; [discriminate|]. intros H.
      rewrite (H fact (proj1 Hin)) in Hin. destruct Hin. discriminate.
    + intros d [= <-]. exists fact. tauto.
  - split; [|discriminate]. split; [|reflexivity]. intros _ f Hin.
    destruct (Fact.is_active f) eqn:Hact; [|reflexivity]. exfalso.
    assert (Hne : filter Fact.is_active (facts s) <> []).
    { intros Hnil. assert (Hf : In f (filter Fact.is_active (facts s)))
        by (apply filter_In; tauto). rewrite Hnil in Hf. exact Hf. }
    destruct (@random_first_nonempty _ (rnd r) _ Hne) as [x Hx]. congruence.
Qed.

(* ===================================================================== *)
(** * Favorites: listing, round trips and isolation                       *)
(* ===================================================================== *)

(** X16: GET /favorites misses nothing: every active fact the caller has a
    Favorite row for is in the list. *)
Theorem favorites_list_complete (u : Z) (data : option (Json Z))
    (r : Request) (s : Store) (fav : Favorite.t) (fact : Fact.t) :
  get_jwt_identity r = Some u ->
  In fav (favorites s) -> In fact (facts s) ->
  Favorite.user_id fav = u -> Fact.id fact = Favorite.fact_id fav ->
  Fact.is_active fact = true ->
  exists listed,
    manage_favorites GET data r s = (Return (Jsonify (FavoritesBody listed)), s) /\
    In (fact_to_dict fact) listed.
Proof.
  intros Hid Hfav Hfact Hu Hf Hact. unfold manage_favorites. rewrite Hid.
  eexists. split; [reflexivity|].
  apply in_map_iff. exists (fav, fact). split; [reflexivity|].
  apply favorites_join_In. cbn [fst snd]. tauto.
Qed.

Lemma favorites_post_created_fact (u f : Z) (d : Json Z) (r : Request)
    (s s1 : Store) :
  json_get "fact_id" d = Some f ->
  favorites_post u (Some d) r s
  = (Return (WithStatus (MessageBody "Added to favorites") 201), s1) ->
  exists fact, In fact (facts s) /\ Fact.id fact = f /\
               Fact.is_active fact = true.
Proof.
  intros Hd. unfold favorites_post, favorites_post_among.
  rewrite (@favorites_post_check_cases u f d s Hd).
  destruct (bindable f); [|discriminate].
  destruct (fact_get s f) as [fact|] eqn:Hget; [|discriminate].
  destruct (Fact.is_active fact) eqn:Hact; [|discriminate].
  intros _. apply fact_get_Some in Hget. exists fact. tauto.
Qed.

(** X17: add, list, remove: after a successful add(u, f) the caller's list
    contains fact f, and remove(u, f) then restores the store exactly as it
    was before the add. *)
Theorem add_list_remove (u f : Z) (d : Json Z) (r r1 r2 : Request)
    (s s1 : Store) :
  json_get "fact_id" d = Some f ->
  favorites_post u (Some d) r s
  = (Return (WithStatus (MessageBody "Added to favorites") 201), s1) ->
  (exists fact listed,
     In fact (facts s) /\ Fact.id fact = f /\
     favorites_get u r1 s1 = (Return (Jsonify (FavoritesBody listed)), s1) /\
     In (fact_to_dict fact) listed) /\
  favorites_delete u (Some d) r2 s1
  = (Return (Jsonify (MessageBody "Removed from favorites")), s).
Proof.
  intros Hd Hadd.
  destruct (@favorites_post_created_fact u f d r s s1 Hd Hadd)
    as (fact & Hfact & Hfid & Hact).
  destruct (@favorites_post_created u f d r s s1 Hd Hadd) as (Hb & Hnone & ->).
  split.
  - exists fact. eexists. repeat split; try assumption.
    unfold favorites_get. apply in_map_iff.
    exists (Favorite.mk (next_id (map Favorite.id (favorites s))) u f (now r),
            fact).
    split; [reflexivity|]. apply favorites_join_In.
    cbn [fst snd favorites facts Favorite.user_id Favorite.fact_id].
    repeat split; try assumption.
    apply in_or_app. right. left. reflexivity.
  - rewrite (@favorites_delete_cases u f d r2 _ Hd), Hb.
    unfold favorite_first in *. cbn [favorites users facts api_usage].
    rewrite (find_app_last _ _ _ Hnone)
      by (apply is_favorite_iff; split; reflexivity).
    cbn [Favorite.id]. rewrite filter_app. cbn [filter].
    rewrite Z.eqb_refl. cbn [negb]. rewrite app_nil_r, filter_fresh_id.
    destruct s; reflexivity.
Qed.

Lemma add_list_remove_witness :
  favorites_delete 1 (Sample.fact_id_body 1) Sample.add_request
    (Sample.concurrent_add Sample.store)
  = (Return (Jsonify (MessageBody "Removed from favorites")), Sample.store).
Proof.
  apply (@add_list_remove 1 1 [("fact_id", 1)] Sample.add_request
           Sample.add_request Sample.add_request Sample.store
           (Sample.concurrent_add Sample.store) eq_refl eq_refl).
Defined.

Lemma favorite_by_id (l : list Favorite.t) (x y : Favorite.t) :
  NoDup (map Favorite.id l) -> In x l -> In y l ->
  Favorite.id x = Favorite.id y -> x = y.
Proof.
  induction l as [|a l IH]; simpl; intros Hnd Hx Hy Hid; [tauto|].
  inversion Hnd as [|? ? Hnotin Hnd']; subst.
  destruct Hx as [->|Hx], Hy as [->|Hy].
  - reflexivity.
  - exfalso. apply Hnotin. rewrite Hid. apply in_map. exact Hy.
  - exfalso. apply Hnotin. rewrite <- Hid. apply in_map. exact Hx.
  - exact (IH Hnd' Hx Hy Hid).
Qed.

(** X18: POST and DELETE /favorites for (u, f) touch that pair only: for
    every other (user, fact) pair, a Favorite row exists after the request
    exactly when one existed before, whatever the answer was. *)
Theorem favorites_touch_one_pair (m : Method) (u f : Z) (d : Json Z)
    (r : Request) (s : Store) (u' f' : Z) :
  get_jwt_identity r = Some u ->
  json_get "fact_id" d = Some f ->
  NoDup (map Favorite.id (favorites s)) ->
  (u', f') <> (u, f) ->
  has_favorite (snd (manage_favorites m (Some d) r s)) u' f'
  <-> has_favorite s u' f'.
Proof.
  intros Hid Hd Hkey Hother. unfold manage_favorites. rewrite Hid.
  destruct m.
  - reflexivity.
  - unfold favorites_post, favorites_post_among.
    rewrite (@favorites_post_check_cases u f d s Hd).
    destruct (bindable f); [|reflexivity].
    destruct (fact_get s f) as [fact|]; [|reflexivity].
    destruct (Fact.is_active fact); [|reflexivity].
    destruct (favorite_exists s u f) eqn:E; [reflexivity|].
    unfold favorites_post_commit. rewrite commit_add_favorite, E.
    unfold has_favorite. cbn [snd favorites]. split.
    + intros (x & Hin & Hu & Hf). apply in_app_or in Hin.
      destruct Hin as [Hin | [<- | []]]; [exists x; tauto|].
      cbn in Hu, Hf. exfalso. apply Hother. congruence.
    + intros (x & Hin & Hu & Hf). exists x. split; [|tauto].
      apply in_or_app. left. exact Hin.
  - rewrite (@favorites_delete_cases u f d r s Hd).
    destruct (bindable f); [|reflexivity].
    destruct (favorite_first s u f) as [fav|] eqn:E; [|reflexivity].
    apply favorite_first_Some in E. destruct E as (Hfav & Hfu & Hff).
    unfold has_favorite. cbn [snd favorites]. split.
    + intros (x & Hin & Hu & Hf). apply filter_In in Hin. exists x. tauto.
    + intros (x & Hin & Hu & Hf). exists x. split; [|tauto].
      apply filter_In. split; [exact Hin|].
      apply negb_true_iff, Z.eqb_neq. intros Hsame.
      apply Hother.
      rewrite (favorite_by_id (favorites s) x fav Hkey Hin Hfav Hsame) in Hu, Hf.
      congruence.
Qed.

Lemma favorites_touch_one_pair_witness :
  has_favorite
    (snd (manage_favorites DELETE (Sample.fact_id_body 2) Sample.add_request
            (Sample.concurrent_add Sample.store))) 1 1
  <-> has_favorite (Sample.concurrent_add Sample.store) 1 1.
Proof.
  apply (@favorites_touch_one_pair DELETE 1 2 [("fact_id", 2)]
           Sample.add_request (Sample.concurrent_add Sample.store) 1 1
           eq_refl eq_refl).
  - exact (favorite_ids_unique sample_added_schema).
  - discriminate.
Defined.

(* ===================================================================== *)
(** * GET /profile and GET /admin/stats                                   *)
(* ===================================================================== *)

Lemma get_profile_cases (u : Z) (r : Request) (s : Store) :
  get_jwt_identity r = Some u ->
  get_profile r s =
  match user_get s u with
  | None => (error "User not found" 404, s)
  | Some user =>
      (Return (Jsonify (ProfileBody (user_to_dict user)
                          (count (filter (fun fav => Favorite.user_id fav =? u)
                                         (favorites s))))), s)
  end.
Proof. intros Hid. unfold get_profile. rewrite Hid. reflexivity. Qed.

(** X19: GET /profile answers 404 "User not found" when the token's user id
    has no User row; and a successful add by the caller raises the
    favorites_count of the caller's profile by exactly one. *)
Theorem profile_counts_favorites (u f : Z) (d : Json Z) (r r' radd : Request)
    (s s1 : Store) :
  get_jwt_identity r = Some u ->
  get_jwt_identity r' = Some u ->
  ((forall user, In user (users s) -> User.id user <> u) ->
   get_profile r s = (error "User not found" 404, s)) /\
  (json_get "fact_id" d = Some f ->
   favorites_post u (Some d) radd s
   = (Return (WithStatus (MessageBody "Added to favorites") 201), s1) ->
   forall user n,
     get_profile r s = (Return (Jsonify (ProfileBody user n)), s) ->
     get_profile r' s1 = (Return (Jsonify (ProfileBody user (n + 1))), s1)).
Proof.
  intros Hid Hid'. rewrite (@get_profile_cases u r s Hid). split.
  - intros Hnone. unfold user_get.
    assert (E : find (fun x => User.id x =? u) (users s) = None).
    { apply find_None_iff. intros x Hx. apply Z.eqb_neq. exact (Hnone x Hx). }
    rewrite E. reflexivity.
  - intros Hd Hadd user n Hprofile.
    destruct (@favorites_post_created u f d radd s s1 Hd Hadd) as (_ & _ & ->).
    rewrite (@get_profile_cases u r' _ Hid').
    unfold user_get in *. cbn [users favorites].
    destruct (find (fun x => User.id x =? u) (users s)) as [found|];
      [|discriminate Hprofile].
    injection Hprofile as <- <-. rewrite filter_app. cbn [filter Favorite.user_id].
    rewrite Z.eqb_refl. unfold count. rewrite length_app. cbn [List.length].
    rewrite Nat2Z.inj_add. reflexivity.
Qed.

Lemma profile_counts_favorites_witness :
  get_profile Sample.add_request (Sample.concurrent_add Sample.store)
  = (Return (Jsonify (ProfileBody (user_to_dict Sample.alice) (0 + 1))),
     Sample.concurrent_add Sample.store).
Proof.
  apply (proj2 (@profile_counts_favorites 1 1 [("fact_id", 1)]
                  Sample.add_request Sample.add_request Sample.add_request
                  Sample.store (Sample.concurrent_add Sample.store)
                  eq_refl eq_refl) eq_refl eq_refl).
  reflexivity.
Defined.

Lemma favorites_list_complete_witness :
  exists listed,
    manage_favorites GET None Sample.add_request
      (Sample.concurrent_add Sample.store)
    = (Return (Jsonify (FavoritesBody listed)),
       Sample.concurrent_add Sample.store) /\
    In (fact_to_dict Sample.octopus) listed.
Proof.
  apply (@favorites_list_complete 1 None Sample.add_request
           (Sample.concurrent_add Sample.store)
           (Favorite.mk 1 1 1 100) Sample.octopus eq_refl).
  - left. reflexivity.
  - left. reflexivity.
  - reflexivity.
  - reflexivity.
  - reflexivity.
Defined.

(* ===================================================================== *)
(** * Seeding                                                             *)
(* ===================================================================== *)

Lemma commit_add_facts (t : Time) (rows : list (string * string)) (s : Store) :
  exists added,
    commit t s (map (fun row => AddFact (fst row) (snd row)) rows)
    = Some (mkStore (users s) (facts s ++ added) (favorites s) (api_usage s)) /\
    List.length added = List.length rows /\
    Forall (fun f => Fact.view_count f = 0 /\ Fact.is_active f = true) added.
Proof.
  revert s. induction rows as [|row rows IH]; intros s.
  - exists []. cbn. rewrite app_nil_r. destruct s. repeat split. constructor.
  - cbn [map commit flush].
    destruct (IH (mkStore (users s)
                    (facts s ++ [Fact.mk (next_id (map Fact.id (facts s)))
                                         (fst row) (snd row) true t 0])
                    (favorites s) (api_usage s)))
      as (added & Hc & Hlen & Hall).
    cbn [users facts favorites api_usage] in Hc.
    eexists (_ :: added). rewrite Hc, <- app_assoc. cbn [app].
    split; [reflexivity|]. cbn [List.length]. rewrite Hlen.
    split; [reflexivity|]. constructor; [split; reflexivity | exact Hall].
Qed.

(** X20: seeding touches an empty Fact table only: on a store that has
    facts it changes nothing; on a store without facts it adds the 15 seed
    facts, all active with a view counter of 0, and leaves the other tables
    alone; so seeding again (every start of the application) changes
    nothing. *)
Theorem seed_data_spec (t t' : Time) (s : Store) :
  (facts s <> [] -> seed_data t s = s) /\
  (facts s = [] ->
   List.length (facts (seed_data t s)) = 15%nat /\
   Forall (fun f => Fact.view_count f = 0 /\ Fact.is_active f = true)
          (facts (seed_data t s)) /\
   users (seed_data t s) = users s /\
   favorites (seed_data t s) = favorites s /\
   api_usage (seed_data t s) = api_usage s) /\
  seed_data t' (seed_data t s) = seed_data t s.
Proof.
  assert (Hfull : facts s <> [] -> seed_data t s = s).
  { intros Hne. unfold seed_data, count.
    destruct (facts s) as [|f l]; [congruence|].
    cbn [List.length]. destruct (Z.eqb_spec (Z.of_nat (S (List.length l))) 0);
      [lia | reflexivity]. }
  assert (Hempty : facts s = [] ->
                   exists added,
                     seed_data t s
                     = mkStore (users s) added (favorites s) (api_usage s) /\
                     List.length added = 15%nat /\
                     Forall (fun f => Fact.view_count f = 0 /\
                                      Fact.is_active f = true) added).
  { intros Hnil. unfold seed_data, count. rewrite Hnil. cbn [List.length Z.of_nat].
    cbn [Z.eqb]. destruct (commit_add_facts t facts_data s)
      as (added & Hc & Hlen & Hall).
    rewrite Hc, Hnil. cbn [app]. exists added. repeat split; assumption. }
  split; [exact Hfull|]. split.
  - intros Hnil. destruct (Hempty Hnil) as (added & -> & Hlen & Hall).
    cbn [users facts favorites api_usage]. repeat split; assumption.
  - destruct (facts s) as [|f l] eqn:E.
    + destruct (Hempty eq_refl) as (added & -> & Hlen & _).
      unfold seed_data at 1, count. cbn [facts]. rewrite Hlen. reflexivity.
    + rewrite Hfull by discriminate. unfold seed_data, count. rewrite E.
      cbn [List.length].
      destruct (Z.eqb_spec (Z.of_nat (S (List.length l))) 0);
        [lia | reflexivity].
Qed.

Lemma seed_data_spec_witness : seed_data 5 Sample.store = Sample.store.
Proof.
  apply (proj1 (seed_data_spec 5 5 Sample.store)). discriminate.
Defined.

(* ===================================================================== *)
(** * The whole pipeline: statistics and the usage table                  *)
(* ===================================================================== *)

Lemma track_usage_store (f : View) (r : Request) (s : Store) :
  snd (track_usage f r s)
  = mkStore (users (snd (f r s))) (facts (snd (f r s)))
            (favorites (snd (f r s)))
            (api_usage (snd (f r s)) ++
               [usage_row (next_id (map ApiUsage.id (api_usage (snd (f r s)))))
                          r (match fst (f r s) with
                             | Raise => 500
                             | Return _ => 200
                             end)]).
Proof.
  unfold track_usage. destruct (f r s) as [out s1]. cbn [fst snd].
  destruct out as [[b|b c]|]; rewrite commit_usage; reflexivity.
Qed.

Lemma random_fact_usage (category : option string) (r : Request) (s : Store) :
  api_usage (snd (random_fact category r s)) = api_usage s.
Proof.
  unfold random_fact.
  destruct (random_first (rnd r) (active_facts s category)); reflexivity.
Qed.

Lemma manage_favorites_usage (m : Method) (data : option (Json Z))
    (r : Request) (s : Store) :
  api_usage (snd (manage_favorites m data r s)) = api_usage s.
Proof.
  unfold manage_favorites. destruct (get_jwt_identity r) as [u|]; [|reflexivity].
  destruct m.
  - reflexivity.
  - unfold favorites_post, favorites_post_among.
    destruct (favorites_post_check u data s) as [answer|[u' f']]; [reflexivity|].
    unfold favorites_post_commit. rewrite commit_add_favorite.
    destruct (favorite_exists s u' f'); reflexivity.
  - unfold favorites_delete.
    destruct (json_falsy data || _); [reflexivity|].
    destruct (json_get "fact_id" _) as [fact_id|]; [|reflexivity].
    destruct (bindable _); cbn [negb]; [|reflexivity].
    destruct (favorite_first s u fact_id); reflexivity.
Qed.

Section Pipeline.

Variable hashpw : string -> string -> option string.
Variable checkpw : string -> string -> option bool.
Variable create_access_token : Z -> Time -> string.

Lemma register_usage (data : option (Json string)) (r : Request) (s : Store) :
  api_usage (snd (register hashpw data r s)) = api_usage s.
Proof.
  unfold register.
  destruct (json_falsy data || _); [reflexivity|].
  destruct (json_get "username" _) as [username|]; [|reflexivity].
  destruct (json_get "email" _) as [email|]; [|reflexivity].
  destruct (json_get "password" _) as [password|]; [|reflexivity].
  destruct (user_by_username s username); [reflexivity|].
  destruct (user_by_email s email); [reflexivity|].
  destruct (hashpw _ _); [|reflexivity].
  simpl. destruct (username_taken s username || email_taken s email);
    reflexivity.
Qed.

(** X21: GET /admin/stats checks no role: any request with a valid token,
    whoever its identity is (it need not even be a user's id), receives the
    numbers of users, active users, facts, active facts and favorites of the
    store, and a count of today's calls that is at most the number of
    ApiUsage rows before the request's own. *)
Theorem admin_stats_any_token (r : Request) (s : Store) (i : Z) :
  rate_limited r = false ->
  call r = AdminStats ->
  bearer r = Some i ->
  exists api_calls_today,
    fst (app hashpw checkpw create_access_token r s)
    = Return (Jsonify (StatsBody
        (count (users s))
        (count (filter User.is_active (users s)))
        (count (facts s))
        (count (filter Fact.is_active (facts s)))
        (count (favorites s))
        api_calls_today)) /\
    0 <= api_calls_today <= count (api_usage s).
Proof.
  intros Hlim Hcall Hbearer. open_app r. rewrite Hlim, Hcall. open_jwt r.
  rewrite Hbearer. unfold track_usage, admin_stats.
  rewrite commit_usage. eexists. split; [reflexivity|].
  unfold count. split; [lia|]. apply inj_le. apply filter_length_le.
Qed.

(** X22: a request that is served (not rate limited, and carrying a valid
    token where the route requires one) appends exactly one row to the
    ApiUsage table and removes or rewrites none; the row names the view
    function, the method and the caller's address, and carries the caller's
    identity on the protected routes only: on the other routes the user id
    is absent even when the request has a valid token. *)
Theorem served_request_one_usage_row (r : Request) (s : Store) :
  rate_limited r = false ->
  jwt_identity r = None ->
  (protected (call r) = true -> exists i, bearer r = Some i) ->
  exists code,
    api_usage (snd (app hashpw checkpw create_access_token r s))
    = (api_usage s ++
       [ApiUsage.mk (next_id (map ApiUsage.id (api_usage s)))
                    (endpoint_name (call r))
                    (method_name (call_method (call r)))
                    (remote_addr r)
                    (if protected (call r) then bearer r else None)
                    code
                    ((end_time r - start_time r) * 1000)
                    (now r)])%list /\
    (code = 200 \/ code = 500).
Proof.
  intros Hlim Hfresh Hauth. open_app r. rewrite Hlim.
  assert (Hcode : forall o : Outcome,
            match o with Raise => 500 | Return _ => 200 end = 200 \/
            match o with Raise => 500 | Return _ => 200 end = 500)
    by (intros [?|]; auto).
  destruct (call r) eqn:Hcall; cbn [protected] in *; open_jwt r;
    try (destruct (Hauth eq_refl) as [i Hb]; rewrite Hb);
    rewrite track_usage_store; cbn [api_usage snd];
    unfold usage_row, get_jwt_identity; cbn [with_identity call remote_addr
      jwt_identity now start_time end_time]; rewrite ?Hcall, ?Hfresh;
    eexists; (split; [|apply Hcode]).
  - reflexivity.
  - reflexivity.
  - rewrite register_usage. reflexivity.
  - rewrite login_unchanged. reflexivity.
  - rewrite get_facts_view_unchanged. reflexivity.
  - rewrite random_fact_usage. reflexivity.
  - reflexivity.
  - rewrite manage_favorites_usage. reflexivity.
  - rewrite get_profile_unchanged. reflexivity.
  - reflexivity.
Qed.

End Pipeline.

Lemma admin_stats_any_token_witness :
  exists api_calls_today,
    fst (app Sample.toy_hashpw Sample.toy_checkpw Sample.toy_token
           (mkRequest AdminStats "10.0.0.9" (Some 999) None false 100 7 9 0 "salt")
           Sample.store)
    = Return (Jsonify (StatsBody
        (count (users Sample.store))
        (count (filter User.is_active (users Sample.store)))
        (count (facts Sample.store))
        (count (filter Fact.is_active (facts Sample.store)))
        (count (favorites Sample.store))
        api_calls_today)) /\
    0 <= api_calls_today <= count (api_usage Sample.store).
Proof.
  apply (@admin_stats_any_token Sample.toy_hashpw Sample.toy_checkpw
           Sample.toy_token
           (mkRequest AdminStats "10.0.0.9" (Some 999) None false 100 7 9 0 "salt")
           Sample.store 999); reflexivity.
Defined.

Lemma served_request_one_usage_row_witness :
  exists code,
    api_usage (snd (app Sample.toy_hashpw Sample.toy_checkpw Sample.toy_token
                      (mkRequest (RandomFact None) "10.0.0.9" (Some 1) None
                                 false 100 7 9 0 "salt")
                      Sample.store))
    = [ApiUsage.mk 1 "random_fact" "GET" "10.0.0.9" None code 2000 100] /\
    (code = 200 \/ code = 500).
Proof.
  apply (@served_request_one_usage_row Sample.toy_hashpw Sample.toy_checkpw
           Sample.toy_token
           (mkRequest (RandomFact None) "10.0.0.9" (Some 1) None
                      false 100 7 9 0 "salt")
           Sample.store); [reflexivity | reflexivity | discriminate].
Defined.

(* ===================================================================== *)
(** * What the routes never do                                            *)
(* ===================================================================== *)

(** X23: a second add(u, f) after a successful one is answered 400
    "Already in favorites" and stores nothing. *)
Theorem add_twice (u f : Z) (d : Json Z) (r r' : Request) (s s1 : Store) :
  json_get "fact_id" d = Some f ->
  favorites_post u (Some d) r s
  = (Return (WithStatus (MessageBody "Added to favorites") 201), s1) ->
  favorites_post u (Some d) r' s1 = (error "Already in favorites" 400, s1).
Proof.
  intros Hd Hadd.
  assert (Hget : exists fact, fact_get s f = Some fact /\
                              Fact.is_active fact = true).
  { revert Hadd. unfold favorites_post, favorites_post_among.
    rewrite (@favorites_post_check_cases u f d s Hd).
    destruct (bindable f); [|discriminate].
    destruct (fact_get s f) as [fact|]; [|discriminate].
    destruct (Fact.is_active fact) eqn:Hact; [|discriminate].
    intros _. exists fact. split; [reflexivity | exact Hact]. }
  destruct Hget as (fact & Hget & Hact).
  destruct (@favorites_post_created u f d r s s1 Hd Hadd) as (Hb & Hnone & ->).
  unfold favorites_post, favorites_post_among.
  rewrite (@favorites_post_check_cases u f d _ Hd), Hb.
  unfold fact_get in *. cbn [facts]. rewrite Hget, Hact.
  rewrite favorite_exists_first. unfold favorite_first in *. cbn [favorites].
  rewrite (find_app_last _ _ _ Hnone)
    by (apply is_favorite_iff; split; reflexivity).
  reflexivity.
Qed.

Lemma add_twice_witness :
  favorites_post 1 (Sample.fact_id_body 1) Sample.add_request
    (Sample.concurrent_add Sample.store)
  = (error "Already in favorites" 400, Sample.concurrent_add Sample.store).
Proof.
  apply (@add_twice 1 1 [("fact_id", 1)] Sample.add_request Sample.add_request
           Sample.store (Sample.concurrent_add Sample.store) eq_refl eq_refl).
Defined.

Lemma random_fact_users (category : option string) (r : Request) (s : Store) :
  users (snd (random_fact category r s)) = users s.
Proof.
  unfold random_fact.
  destruct (random_first (rnd r) (active_facts s category)); reflexivity.
Qed.

Lemma manage_favorites_users (m : Method) (data : option (Json Z))
    (r : Request) (s : Store) :
  users (snd (manage_favorites m data r s)) = users s.
Proof.
  unfold manage_favorites. destruct (get_jwt_identity r) as [u|]; [|reflexivity].
  destruct m.
  - reflexivity.
  - unfold favorites_post, favorites_post_among.
    destruct (favorites_post_check u data s) as [answer|[u' f']]; [reflexivity|].
    unfold favorites_post_commit. rewrite commit_add_favorite.
    destruct (favorite_exists s u' f'); reflexivity.
  - unfold favorites_delete.
    destruct (json_falsy data || _); [reflexivity|].
    destruct (json_get "fact_id" _) as [fact_id|]; [|reflexivity].
    destruct (bindable _); cbn [negb]; [|reflexivity].
    destruct (favorite_first s u fact_id); reflexivity.
Qed.

Section Never.

Variable hashpw : string -> string -> option string.
Variable checkpw : string -> string -> option bool.
Variable create_access_token : Z -> Time -> string.

Lemma register_users (data : option (Json string)) (r : Request) (s : Store) :
  users (snd (register hashpw data r s)) = users s \/
  exists user, users (snd (register hashpw data r s)) = (users s ++ [user])%list.
Proof.
  unfold register.
  destruct (json_falsy data || _); [left; reflexivity|].
  destruct (json_get "username" _) as [username|]; [|left; reflexivity].
  destruct (json_get "email" _) as [email|]; [|left; reflexivity].
  destruct (json_get "password" _) as [password|]; [|left; reflexivity].
  destruct (user_by_username s username); [left; reflexivity|].
  destruct (user_by_email s email); [left; reflexivity|].
  destruct (hashpw _ _); [|left; reflexivity].
  simpl. destruct (username_taken s username || email_taken s email);
    [left; reflexivity|]. right. eexists. reflexivity.
Qed.

(** X24: the ApiUsage table is append-only: whatever the request, the rows
    it held are still there, unchanged and in place, and at most one row
    has been added after them. *)
Theorem usage_append_only (r : Request) (s : Store) :
  exists rows,
    api_usage (snd (app hashpw checkpw create_access_token r s))
    = (api_usage s ++ rows)%list /\
    (List.length rows <= 1)%nat.
Proof.
  assert (Hnone : exists rows, api_usage s = (api_usage s ++ rows)%list /\
                               (List.length rows <= 1)%nat).
  { exists []. rewrite app_nil_r. split; [reflexivity | cbn; lia]. }
  assert (Hone : forall (f : View) (r' : Request),
            api_usage (snd (f r' s)) = api_usage s ->
            exists rows,
              api_usage (snd (track_usage f r' s)) = (api_usage s ++ rows)%list /\
              (List.length rows <= 1)%nat).
  { intros f r' Hf. rewrite track_usage_store. cbn [api_usage]. rewrite Hf.
    eexists. split; [reflexivity | cbn; lia]. }
  open_app r. destruct (rate_limited r); [exact Hnone|].
  destruct (call r); open_jwt r;
    try (destruct (bearer r); [|exact Hnone]);
    apply Hone.
  - reflexivity.
  - reflexivity.
  - apply register_usage.
  - rewrite login_unchanged. reflexivity.
  - rewrite get_facts_view_unchanged. reflexivity.
  - apply random_fact_usage.
  - reflexivity.
  - apply manage_favorites_usage.
  - rewrite get_profile_unchanged. reflexivity.
  - reflexivity.
Qed.

(** X25: no route edits or deletes an account: after any request the User
    table is what it was, or, for POST /register only, what it was with
    one row added at the end. *)
Theorem accounts_only_grow (r : Request) (s : Store) :
  users (snd (app hashpw checkpw create_access_token r s)) = users s \/
  exists data user,
    call r = Register data /\
    users (snd (app hashpw checkpw create_access_token r s))
    = (users s ++ [user])%list.
Proof.
  open_app r. destruct (rate_limited r); [left; reflexivity|].
  destruct (call r) eqn:Hcall; open_jwt r;
    try (destruct (bearer r); [|left; reflexivity]);
    rewrite track_usage_store; cbn [users snd].
  - left. reflexivity.
  - left. reflexivity.
  - destruct (register_users data (with_identity None r) s) as [H | [user H]].
    + left. exact H.
    + right. exists data, user. split; [reflexivity | exact H].
  - left. rewrite login_unchanged. reflexivity.
  - left. rewrite get_facts_view_unchanged. reflexivity.
  - left. apply random_fact_users.
  - left. reflexivity.
  - left. apply manage_favorites_users.
  - left. rewrite get_profile_unchanged. reflexivity.
  - left. reflexivity.
Qed.

(** X26: no route adds, deletes, edits or deactivates a fact: after any
    request the Fact table has the same rows in the same order, each with
    its id, content, category, active flag and creation time; only view
    counters can differ. *)
Theorem facts_content_immutable (r : Request) (s : Store) :
  Forall2 (fun f f' =>
             Fact.id f' = Fact.id f /\ Fact.content f' = Fact.content f /\
             Fact.category f' = Fact.category f /\
             Fact.is_active f' = Fact.is_active f /\
             Fact.created_at f' = Fact.created_at f)
          (facts s)
          (facts (snd (app hashpw checkpw create_access_token r s))).
Proof.
  destruct (app_facts hashpw checkpw create_access_token r s)
    as [-> | (picked & _ & ->)].
  - induction (facts s) as [|f l IH]; constructor; [|exact IH].
    repeat split; reflexivity.
  - induction (facts s) as [|f l IH]; cbn [map]; constructor; [|exact IH].
    destruct (Fact.id f =? Fact.id picked); repeat split; reflexivity.
Qed.

End Never.
